(** * Manifest builder of the TTS dataset: split tables, duration probe, JSONL

    Shallow embedding of [extract_dataset_metadata.py].

    Conventions.
    - A Python [str] is a Rocq [string]; the character of code [n] stands
      for the code point U+00[n], so the model covers text within Latin-1.
    - A Python [float] is a primitive binary64 [float]; a Python [int] is
      a [Z].
    - A raised exception is the [Raise] branch of [result].
    - A [Dict[str, ...]] is a [gmap string ...].
    - What the libraries read from the machine (the listing of the data
      root, the headers of the audio files, the rows of the csv files)
      is an argument of the function that reads it.
    - Library functions follow CPython 3.11. *)

From Stdlib Require Import ZArith Ascii Floats.
From stdpp Require Import gmap strings list fin_maps.

Local Open Scope Z_scope.

(** ** Exceptions *)

Inductive exn :=
| FileNotFoundError (msg : string)
| ValueError (msg : string)
| RuntimeError (msg : string)
| TypeError
| AttributeError
| KeyError (key : string)
| ZeroDivisionError
| OverflowError
| ImportError
| OtherError (name : string).

Inductive result (A : Type) :=
| Ok (a : A)
| Raise (e : exn).
Arguments Ok {A} a.
Arguments Raise {A} e.

Definition bind {A B} (r : result A) (k : A -> result B) : result B :=
  match r with
  | Ok a => k a
  | Raise e => Raise e
  end.

Notation "'let*' x ':=' r 'in' k" := (bind r (fun x => k))
  (at level 10, x pattern, r at level 100, k at level 200).

(** ** Python strings *)

Module PyStr.

Definition code (c : ascii) : Z := Z.of_N (N_of_ascii c).

Definition in_range (lo hi : Z) (c : ascii) : bool :=
  (lo <=? code c) && (code c <=? hi).

(** [str.isspace] on one character. *)
Definition isspace (c : ascii) : bool :=
  in_range 9 13 c || in_range 28 32 c || (code c =? 133) || (code c =? 160).

Fixpoint lstrip (s : string) : string :=
  match s with
  | String c s' => if isspace c then lstrip s' else s
  | EmptyString => EmptyString
  end.

Fixpoint rstrip (s : string) : string :=
  match s with
  | String c s' =>
      match rstrip s' with
      | EmptyString => if isspace c then EmptyString else String c EmptyString
      | r => String c r
      end
  | EmptyString => EmptyString
  end.

(** [s.strip()] *)
Definition strip (s : string) : string := rstrip (lstrip s).

(** [s.replace(old, new)] for one-character [old] and [new]. *)
Fixpoint replace (old new : ascii) (s : string) : string :=
  match s with
  | String c s' =>
      String (if Ascii.eqb c old then new else c) (replace old new s')
  | EmptyString => EmptyString
  end.

Definition lower_char (c : ascii) : ascii :=
  if in_range 65 90 c || in_range 192 214 c || in_range 216 222 c
  then ascii_of_N (N_of_ascii c + 32)
  else c.

(** [s.lower()] *)
Fixpoint lower (s : string) : string :=
  match s with
  | String c s' => String (lower_char c) (lower s')
  | EmptyString => EmptyString
  end.

(** [sep.join(parts)] *)
Fixpoint join (sep : string) (parts : list string) : string :=
  match parts with
  | [] => EmptyString
  | [p] => p
  | p :: ps => p +:+ sep +:+ join sep ps
  end.

End PyStr.

(** ** Python numbers *)

Module PyNum.

(** [n / (d * 2^k)] as quotient, remainder and divisor, in integers. *)
Definition scaled_div (n d k : Z) : Z * Z * Z :=
  if 0 <=? k
  then let dd := d * 2 ^ k in (n / dd, n mod dd, dd)
  else let nn := n * 2 ^ (- k) in (nn / d, nn mod d, d).

(** The quotient rounded to the nearest integer, ties to even. *)
Definition round_half_even (qrd : Z * Z * Z) : Z :=
  let '(q, r, dd) := qrd in
  if 2 * r <? dd then q
  else if dd <? 2 * r then q + 1
  else if Z.even q then q else q + 1.

(** The binary64 nearest to the rational [n / d] (ties to even), for
    [0 <= n] and [0 < d]; beyond the largest finite value it is
    [infinity]. *)
Definition nearest_binary64 (n d : Z) : float :=
  if n =? 0 then 0%float
  else
    let k0 := Z.log2 n - Z.log2 d - 53 in
    let q0 := fst (fst (scaled_div n d k0)) in
    let k1 := if 2 ^ 53 <=? q0 then k0 + 1 else k0 in
    let k := Z.max k1 (-1074) in
    if 971 <? k then infinity
    else
      let m := round_half_even (scaled_div n d k) in
      Z.ldexp (of_uint63 (Uint63.of_Z m)) k.

(** From [2^1024 - 2^970] on, an integer rounds beyond the largest
    finite binary64. *)
Definition float_overflow_bound : Z := 2 ^ 1024 - 2 ^ 970.

(** Conversion of an [int] operand in mixed arithmetic: the nearest
    binary64, or [OverflowError] when there is no finite one. *)
Definition int_to_float (z : Z) : result float :=
  if float_overflow_bound <=? Z.abs z then Raise OverflowError
  else
    let f := nearest_binary64 (Z.abs z) 1 in
    Ok (if z <? 0 then (- f)%float else f).

(** [x * y] for an [int] [x] and a [float] [y]. *)
Definition int_mul_float (x : Z) (y : float) : result float :=
  let* a := int_to_float x in
  Ok (a * y)%float.

(** [x / y] for a [float] [x] and an [int] [y]. *)
Definition float_div_int (x : float) (y : Z) : result float :=
  let* b := int_to_float y in
  if y =? 0 then Raise ZeroDivisionError else Ok (x / b)%float.

(** *** [float(s)] on a string *)

(** The white space that [float] ignores around the literal. *)
Definition float_space (c : ascii) : bool :=
  PyStr.in_range 9 13 c || (PyStr.code c =? 32)
  || (PyStr.code c =? 133) || (PyStr.code c =? 160).

Fixpoint float_lstrip (s : string) : string :=
  match s with
  | String c s' => if float_space c then float_lstrip s' else s
  | EmptyString => EmptyString
  end.

Fixpoint float_rstrip (s : string) : string :=
  match s with
  | String c s' =>
      match float_rstrip s' with
      | EmptyString => if float_space c then EmptyString else String c EmptyString
      | r => String c r
      end
  | EmptyString => EmptyString
  end.

Definition is_digit (c : ascii) : bool := PyStr.in_range 48 57 c.

(** An underscore is accepted only between two digits and is then
    dropped; [prev] is the character before [s], NUL at the start. *)
Fixpoint drop_underscores (prev : ascii) (s : string) : option string :=
  match s with
  | EmptyString => if Ascii.eqb prev "_" then None else Some EmptyString
  | String c s' =>
      if Ascii.eqb c "_" then
        if is_digit prev then drop_underscores c s' else None
      else if Ascii.eqb prev "_" && negb (is_digit c) then None
      else option_map (String c) (drop_underscores c s')
  end.

(** Leading digits of [s]: their value after [acc], their number after
    [cnt], and the rest of [s]. *)
Fixpoint take_digits (s : string) (acc cnt : Z) : Z * Z * string :=
  match s with
  | String c s' =>
      if is_digit c then take_digits s' (10 * acc + (PyStr.code c - 48)) (cnt + 1)
      else (acc, cnt, s)
  | EmptyString => (acc, cnt, s)
  end.

(** An optional sign: whether it is a minus, and the rest. *)
Definition take_sign (s : string) : bool * string :=
  match s with
  | String "-" s' => (true, s')
  | String "+" s' => (false, s')
  | _ => (false, s)
  end.

(** The exponent part: empty, or [e] or [E], an optional sign and at
    least one digit, up to the end of the string. *)
Definition parse_exponent (s : string) : option Z :=
  match s with
  | EmptyString => Some 0
  | String c s' =>
      if Ascii.eqb c "e" || Ascii.eqb c "E" then
        let '(neg, s1) := take_sign s' in
        match take_digits s1 0 0 with
        | (v, cnt, EmptyString) =>
            if 0 <? cnt then Some (if neg then - v else v) else None
        | _ => None
        end
      else None
  end.

(** An unsigned decimal literal as a rational: numerator and denominator. *)
Definition parse_decimal (s : string) : option (Z * Z) :=
  let '(ip, icnt, s1) := take_digits s 0 0 in
  let '(m, fcnt, s2) :=
    match s1 with
    | String "." s1' => take_digits s1' ip 0
    | _ => (ip, 0, s1)
    end in
  if icnt + fcnt =? 0 then None
  else
    match parse_exponent s2 with
    | Some e =>
        let e10 := e - fcnt in
        Some (if 0 <=? e10 then (m * 10 ^ e10, 1) else (m, 10 ^ (- e10)))
    | None => None
    end.

(** [inf], [infinity] or [nan] in any case, or a decimal literal. *)
Definition parse_unsigned (s : string) : option float :=
  let l := PyStr.lower s in
  if String.eqb l "inf" || String.eqb l "infinity" then Some infinity
  else if String.eqb l "nan" then Some nan
  else
    match parse_decimal s with
    | Some (n, d) => Some (nearest_binary64 n d)
    | None => None
    end.

(** [float(s)]: surrounding white space is ignored, then a sign and a
    decimal literal, [inf], [infinity] or [nan]; anything else is a
    [ValueError] (its message goes on with the text of [s]). *)
Definition float_of_str (s : string) : result float :=
  let bad := Raise (ValueError "could not convert string to float") in
  match drop_underscores "000" (float_rstrip (float_lstrip s)) with
  | Some t =>
      let '(neg, u) := take_sign t in
      match parse_unsigned u with
      | Some f => Ok (if neg then (- f)%float else f)
      | None => bad
      end
  | None => bad
  end.

(** [float(x)] where [x] is a cell of a csv row: a string, or [None]. *)
Definition py_float (x : option string) : result float :=
  match x with
  | Some s => float_of_str s
  | None => Raise TypeError
  end.

End PyNum.


(** ** Paths *)

Module PyPath.

(** A resolved path is the list of its components below the anchor;
    a relative path is the list of its components. *)
Definition path := list string.

(** [p.name] *)
Definition name (p : path) : string := List.last p "".

(** [p.parent] *)
Definition parent (p : path) : path := removelast p.

(** [s.rfind(c)]: the last index of [c] in [s], or [-1]. *)
Fixpoint rfind (c : ascii) (s : string) : Z :=
  match s with
  | EmptyString => -1
  | String a s' =>
      let r := rfind c s' in
      if 0 <=? r then r + 1 else if Ascii.eqb a c then 0 else -1
  end.

(** [s[i:]] *)
Fixpoint slice_from (i : nat) (s : string) : string :=
  match i, s with
  | O, _ => s
  | S i', String _ s' => slice_from i' s'
  | S _, EmptyString => EmptyString
  end.

Definition len (s : string) : Z := Z.of_nat (String.length s).

(** [p.suffix] *)
Definition suffix (p : path) : string :=
  let nm := name p in
  let i := rfind "." nm in
  if (0 <? i) && (i <? len nm - 1) then slice_from (Z.to_nat i) nm else "".

(** [p.relative_to(root)] *)
Fixpoint relative_to (p root : path) : result path :=
  match root, p with
  | [], _ => Ok p
  | r :: root', c :: p' =>
      if String.eqb r c then relative_to p' root'
      else Raise (ValueError "not in the subpath")
  | _ :: _, [] => Raise (ValueError "not in the subpath")
  end.

(** [str(p)] for a relative path [p], with the platform's separator. *)
Definition str (sep : string) (p : path) : string :=
  match p with
  | [] => "."
  | _ => PyStr.join sep p
  end.

End PyPath.

(** ** What the run sees of the machine *)

(** The audio side: the platform's separator, the listing of the data
    root, and what the two decoders answer for a path. *)
Record audio_env := {
  (** [os.sep] *)
  os_sep : string;
  (** what [root.rglob("*")] yields, in its order, relative to [root] *)
  rglob_all : list PyPath.path;
  (** [p.is_file()] *)
  is_file : PyPath.path -> bool;
  (** [wave.open(str(p), "rb")], then [getnframes()] and [getframerate()],
      both derived from 32-bit fields of the header *)
  wave_open : PyPath.path -> result (Z * Z);
  (** [import soundfile as sf], then [sf.SoundFile(str(p))] with its
      [len] and [samplerate] *)
  soundfile : result (PyPath.path -> result (Z * Z))
}.

(** A file of the split directory: one that cannot be opened or decoded,
    or the rows that [csv.reader] yields for it, up to its end. *)
Inductive csv_file :=
| Unreadable (e : exn)
| Table (raw : list (list string)).

(** The split directory: its path as text, up to the name of a file in
    it, and its files by name; a name without a file is one for which
    [exists()] is false. *)
Record split_dir := {
  dir_prefix : string;
  files : gmap string csv_file
}.

(** ** Duration probe *)

Definition AUDIO_EXTS : gset string :=
  {[ ".wav"; ".flac"; ".mp3"; ".m4a"; ".ogg" ]}.

(** [frames * 1000.0 / sr] *)
Definition frames_to_ms (frames sr : Z) : result float :=
  let* x := PyNum.int_mul_float frames 1000%float in
  PyNum.float_div_int x sr.

(** [try: body except ImportError: raise RuntimeError(msg)] *)
Definition except_ImportError {A} (body : result A) (msg : string) : result A :=
  match body with
  | Raise ImportError => Raise (RuntimeError msg)
  | r => r
  end.

Definition audio_duration_ms (env : audio_env) (path : PyPath.path) : result float :=
  if String.eqb (PyStr.lower (PyPath.suffix path)) ".wav" then
    let* (frames, sr) := wave_open env path in
    frames_to_ms frames sr
  else
    except_ImportError
      (let* sf := soundfile env in
       let* (n, samplerate) := sf path in
       frames_to_ms n samplerate)
      ("Cannot read " +:+ PyPath.suffix path
         +:+ "; install `pip install soundfile` or convert to WAV.").

(** ** Split tables *)

Definition split_names : list string := ["train"; "val"; "test"].

(** [reader.fieldnames]: the first row of the file, [None] for an empty
    file. *)
Definition fieldnames (raw : list (list string)) : option (list string) :=
  head raw.

(** The rows [DictReader] iterates over: those after the header that are
    not blank. *)
Definition data_rows (raw : list (list string)) : list (list string) :=
  List.filter (fun row => negb (Nat.eqb (length row) 0)) (tail raw).

(** The dict [DictReader] builds for a row: [dict(zip(fieldnames, row))],
    then [None] for each field name the row is too short for. *)
Definition dict_row (fields row : list string) : gmap string (option string) :=
  foldl (fun d kv => <[kv.1 := kv.2]> d) ∅
    (zip fields (map Some row ++ replicate (length fields - length row) None)).

(** [d[key]] *)
Definition getitem {V} (d : gmap string V) (key : string) : result V :=
  match d !! key with
  | Some v => Ok v
  | None => Raise (KeyError key)
  end.

(** [for x in xs: acc = f(acc, x)], stopping at the first exception. *)
Fixpoint fold_result {A B} (f : A -> B -> result A) (xs : list B) (acc : A) : result A :=
  match xs with
  | [] => Ok acc
  | x :: xs' => let* acc' := f acc x in fold_result f xs' acc'
  end.

(** The key and the rating of one row:
    [row["stimuli"].strip().replace("\\", "/")] and [float(row["mos"])]. *)
Definition row_entry (fields row : list string) : result (string * float) :=
  let d := dict_row fields row in
  let* stimuli := getitem d "stimuli" in
  let* rel_path :=
    match stimuli with
    | Some s => Ok (PyStr.replace "\" "/" (PyStr.strip s))
    | None => Raise AttributeError
    end in
  let* mos := getitem d "mos" in
  let* rating := PyNum.py_float mos in
  Ok (rel_path, rating).

(** The body of [for row in reader]. *)
Definition read_row (split_name : string) (fields : list string)
    (mapping : gmap string (string * float)) (row : list string)
    : result (gmap string (string * float)) :=
  let* (rel_path, rating) := row_entry fields row in
  Ok (<[rel_path := (split_name, rating)]> mapping).

(** [f"{split_name}.csv"] *)
Definition csv_name (split_name : string) : string := split_name +:+ ".csv".

(** The body of [for split_name in ("train", "val", "test")]. *)
Definition read_table (dir : split_dir)
    (mapping : gmap string (string * float)) (split_name : string)
    : result (gmap string (string * float)) :=
  match files dir !! csv_name split_name with
  | None =>
      Raise (FileNotFoundError
               ("Expected " +:+ dir_prefix dir +:+ csv_name split_name))
  | Some (Unreadable e) => Raise e
  | Some (Table raw) =>
      match fieldnames raw with
      | None => Raise TypeError
      | Some fields =>
          if decide (({[ "stimuli"; "mos" ]} : gset string) ∖ list_to_set fields = ∅)
          then fold_result (read_row split_name fields) (data_rows raw) mapping
          else Raise (ValueError
                        (dir_prefix dir +:+ csv_name split_name
                           +:+ " must contain 'stimuli' and 'mos' columns."))
      end
  end.

Definition read_split_tables (dir : split_dir) : result (gmap string (string * float)) :=
  fold_result (read_table dir) split_names ∅.

(** ** Manifest rows *)

Record ManifestRecord := {
  file_path : string;
  speaker_id : string;
  duration_ms : float;
  split : string;
  rating : float
}.

(** What the generator does towards its caller and the diagnostic
    stream, in order: a warning printed, or a row yielded. *)
Inductive event :=
| Warn (rel_path : string)
| Yield (row : ManifestRecord).

(** A run of the generator: its events, and the exception that ended it
    if one did. *)
Definition trace : Type := list event * option exn.

(** The run that does [ev] and goes on as [t]. *)
Definition then_events (ev : event) (t : trace) : trace := (ev :: t.1, t.2).

(** [audio.suffix.lower() not in AUDIO_EXTS or not audio.is_file()] *)
Definition not_audio_file (env : audio_env) (audio : PyPath.path) : bool :=
  negb (bool_decide (PyStr.lower (PyPath.suffix audio) ∈ AUDIO_EXTS))
  || negb (is_file env audio).

(** [str(audio.relative_to(root)).replace("\\", "/")] *)
Definition rel_path_of (env : audio_env) (rel : PyPath.path) : string :=
  PyStr.replace "\" "/" (PyPath.str (os_sep env) rel).

(** The loop of [build_manifest] over the entries still to come. *)
Fixpoint build_manifest_loop (env : audio_env) (root : PyPath.path)
    (split_map : gmap string (string * float)) (entries : list PyPath.path) : trace :=
  match entries with
  | [] => ([], None)
  | audio :: rest =>
      if not_audio_file env audio
      then build_manifest_loop env root split_map rest
      else
        match PyPath.relative_to audio root with
        | Raise e => ([], Some e)
        | Ok rel =>
            let rel_path := rel_path_of env rel in
            match split_map !! rel_path with
            | None =>
                then_events (Warn rel_path)
                  (build_manifest_loop env root split_map rest)
            | Some (split, rating) =>
                let speaker_id := PyPath.name (PyPath.parent audio) in
                match audio_duration_ms env audio with
                | Raise e => ([], Some e)
                | Ok duration =>
                    then_events
                      (Yield {| file_path := rel_path;
                                speaker_id := speaker_id;
                                duration_ms := duration;
                                split := split;
                                rating := rating |})
                      (build_manifest_loop env root split_map rest)
                end
            end
        end
  end.

(** [root.rglob("*")]: every entry below [root], as a path from [root]. *)
Definition rglob (env : audio_env) (root : PyPath.path) : list PyPath.path :=
  map (fun rel => root ++ rel) (rglob_all env).

Definition build_manifest (env : audio_env) (root : PyPath.path)
    (split_map : gmap string (string * float)) : trace :=
  build_manifest_loop env root split_map (rglob env root).

(** ** The run *)

(** A line of the diagnostic stream. *)
Inductive diagnostic :=
| SkippedWarning (rel_path : string)
| WroteEntries (n_written : nat).

(** What a run changes: the content of the output path ([None] while
    there is no file there) and the lines the program prints to the
    diagnostic stream. The report of an uncaught exception is not one of
    them: it is the exception that [main] returns. *)
Record run_state := {
  out_file : option string;
  stderr : list diagnostic
}.

(** The output side: the exceptions, if any, that creating the parent
    directory and opening the output for writing raise. *)
Record out_env := {
  mkdir_parents : option exn;
  open_w : option exn
}.

Definition newline : string := String "010" EmptyString.

Section Main.

(** [json.dumps(row, ensure_ascii=False)] *)
Variable json_dumps : ManifestRecord -> string.

(** The open file, the counter and the diagnostic stream while [main]
    iterates over the generator. *)
Record writer := {
  written : string;
  n_written : nat;
  diagnostics : list diagnostic
}.

(** One turn of the generator as [main] sees it: a warning reaches the
    diagnostic stream from inside the generator, a yielded row runs the
    body of the [for]. *)
Definition consume (w : writer) (ev : event) : writer :=
  match ev with
  | Warn rel_path =>
      {| written := written w;
         n_written := n_written w;
         diagnostics := diagnostics w ++ [SkippedWarning rel_path] |}
  | Yield row =>
      {| written := written w +:+ json_dumps row +:+ newline;
         n_written := S (n_written w);
         diagnostics := diagnostics w |}
  end.

(** [main], from a state of the output path and of the diagnostic
    stream; [data_root] is the root as [resolve()] gives it, and the
    exception, if any, is the one the run dies of. *)
Definition main (aenv : audio_env) (oenv : out_env) (dir : split_dir)
    (data_root : PyPath.path) (st : run_state) : run_state * option exn :=
  match read_split_tables dir with
  | Raise e => (st, Some e)
  | Ok split_map =>
      match mkdir_parents oenv with
      | Some e => (st, Some e)
      | None =>
          match open_w oenv with
          | Some e => (st, Some e)
          | None =>
              let t := build_manifest aenv data_root split_map in
              let w := foldl consume
                         {| written := ""; n_written := 0;
                            diagnostics := stderr st |} t.1 in
              match t.2 with
              | Some e =>
                  ({| out_file := Some (written w);
                      stderr := diagnostics w |}, Some e)
              | None =>
                  ({| out_file := Some (written w);
                      stderr := diagnostics w ++ [WroteEntries (n_written w)] |},
                   None)
              end
          end
      end
  end.

End Main.

(** ** Notions the statements use *)

(** The five extensions, as the specification lists them. *)
Definition supported_exts : list string :=
  [".wav"; ".flac"; ".mp3"; ".m4a"; ".ogg"].

(** The extension of [p], compared without regard to case, is a
    supported one. *)
Definition supported_ext (p : PyPath.path) : Prop :=
  PyStr.lower (PyPath.suffix p) ∈ supported_exts.

(** The loop keeps the entry: the test that skips it is false. *)
Definition is_audio_file (env : audio_env) (audio : PyPath.path) : bool :=
  negb (not_audio_file env audio).

(** The path an event is about. *)
Definition event_path (ev : event) : string :=
  match ev with
  | Warn rel_path => rel_path
  | Yield row => file_path row
  end.

(** A rating between 1.0 and 5.0. *)
Definition rating_in_range (r : float) : bool :=
  (1 <=? r)%float && (r <=? 5)%float.

(** The data rows of one table, each with the split and the header it
    is read under. *)
Definition table_rows (dir : split_dir) (split_name : string)
    : list (string * list string * list string) :=
  match files dir !! csv_name split_name with
  | Some (Table raw) =>
      match fieldnames raw with
      | Some fields => map (fun row => (split_name, fields, row)) (data_rows raw)
      | None => []
      end
  | _ => []
  end.

(** All data rows in the order the reader processes them. *)
Definition rows_in_order (dir : split_dir)
    : list (string * list string * list string) :=
  table_rows dir "train" ++ table_rows dir "val" ++ table_rows dir "test".

(** The key and the pair that a row stores. *)
Definition entry_of (r : string * list string * list string)
    : result (string * (string * float)) :=
  let* (rel_path, rating) := row_entry r.1.2 r.2 in
  Ok (rel_path, (r.1.1, rating)).

(** Every mos cell that parses gives a rating between 1.0 and 5.0. *)
Definition ratings_in_range (dir : split_dir) : bool :=
  forallb
    (fun r => match entry_of r with
              | Ok (_, (_, rating)) => rating_in_range rating
              | Raise _ => true
              end)
    (rows_in_order dir).

(** [c] occurs in [s]. *)
Fixpoint occurs (c : ascii) (s : string) : bool :=
  match s with
  | String a s' => Ascii.eqb a c || occurs c s'
  | EmptyString => false
  end.

(** [mapping[k] = v] for an entry [(k, v)]. *)
Definition store (m : gmap string (string * float))
    (kv : string * (string * float)) : gmap string (string * float) :=
  <[kv.1 := kv.2]> m.

(** ** Sample inputs *)

Module Sample.

Definition header : list string := ["stimuli"; "mos"].

Definition dir_of (train val test : option csv_file) : split_dir :=
  {| dir_prefix := "split/";
     files :=
       list_to_map
         (omap (fun kv => pair kv.1 <$> kv.2)
            [("train.csv", train); ("val.csv", val); ("test.csv", test)]) |}.

(** A rating of 7.5 in [train.csv]. *)
Definition dir_rating_7_5 : split_dir :=
  dir_of (Some (Table [header; ["a.wav"; "7.5"]]))
         (Some (Table [header]))
         (Some (Table [header])).

(** Ratings within range, one path rated twice. *)
Definition dir_twice : split_dir :=
  dir_of (Some (Table [header; ["spk1\a.WAV"; "4.5"]; []; [" spk2/d.flac "; "3"]]))
         (Some (Table [["mos"; "stimuli"; "note"]; ["1e0"; "spk1/b.wav"; "x"; "y"]]))
         (Some (Table [header; ["spk1/a.WAV"; "2.0"]])).

(** [train.csv] without a mos column, [val.csv] absent. *)
Definition dir_bad_train_no_val : split_dir :=
  dir_of (Some (Table [["stimuli"]; ["a.wav"]]))
         None
         (Some (Table [header])).

(** [test.csv] absent, the two tables before it in order. *)
Definition dir_no_test : split_dir :=
  dir_of (Some (Table [header; ["a.wav"; "4.5"]]))
         (Some (Table [header]))
         None.

Definition root : PyPath.path := ["home"; "data"].

(** A tree with a directory, a text file and four audio files, one of
    them with a zero sample rate; no soundfile module. *)
Definition tree : audio_env :=
  {| os_sep := "/";
     rglob_all :=
       [["spk1"]; ["spk1"; "a.WAV"]; ["notes.txt"]; ["spk1"; "b.wav"];
        ["spk1"; "c.wav"]; ["spk2"; "d.flac"]];
     is_file := fun p => negb (bool_decide (p = root ++ ["spk1"]));
     wave_open := fun p =>
       if bool_decide (p = root ++ ["spk1"; "b.wav"]) then Ok (10, 0)
       else Ok (16000, 16000);
     soundfile := Raise ImportError |}.

(** What the reader returns for [dir_twice]. *)
Definition lookup : gmap string (string * float) :=
  {[ "spk1/a.WAV" := ("test", 2%float);
     "spk1/b.wav" := ("val", 1%float);
     "spk2/d.flac" := ("train", 3%float) ]}.

(** A lookup with the first audio file only. *)
Definition lookup_a : gmap string (string * float) :=
  {[ "spk1/a.WAV" := ("train", 4.5%float) ]}.

Definition row_a : ManifestRecord :=
  {| file_path := "spk1/a.WAV";
     speaker_id := "spk1";
     duration_ms := 1000%float;
     split := "test";
     rating := 2%float |}.

Definition writable : out_env := {| mkdir_parents := None; open_w := None |}.

Definition before : run_state := {| out_file := Some "old"; stderr := [] |}.

Definition dumps (row : ManifestRecord) : string := file_path row.

End Sample.

(** ** The upload script [make_hf_dataset.py] *)

Module Hub.

(** [s.split(c)] *)
Fixpoint split_on (c : ascii) (s : string) : list string :=
  match s with
  | EmptyString => [EmptyString]
  | String a s' =>
      if Ascii.eqb a c then EmptyString :: split_on c s'
      else
        match split_on c s' with
        | x :: xs => String a x :: xs
        | [] => [String a EmptyString]
        end
  end.

(** The components that a POSIX path keeps of a string: the pieces
    between slashes that are neither empty nor a single dot. *)
Definition posix_parts (p : string) : list string :=
  List.filter (fun x => negb (String.eqb x "") && negb (String.eqb x "."))
    (split_on "/" p).

(** The number of [c] that [s] starts with. *)
Fixpoint count_leading (c : ascii) (s : string) : nat :=
  match s with
  | String a s' => if Ascii.eqb a c then S (count_leading c s') else O
  | EmptyString => O
  end.

(** The root that a POSIX path finds at the start of a string: none,
    one slash, or two for exactly two slashes. *)
Definition posix_anchor (p : string) : string :=
  match count_leading "/" p with
  | O => ""
  | 2%nat => "//"
  | _ => "/"
  end.

(** [str(root / p)] for the absolute POSIX path of components [root]:
    an absolute [p] replaces [root]. *)
Definition str_truediv (root : PyPath.path) (p : string) : string :=
  if String.eqb (posix_anchor p) ""
  then "/" +:+ PyStr.join "/" (root ++ posix_parts p)
  else posix_anchor p +:+ PyStr.join "/" (posix_parts p).

(** The folder of line 5. *)
Definition root : PyPath.path :=
  ["home"; "aleph"; "tesis"; "frontend"; "public"; "assets"; "stimuli_norm"].

(** [df["file_path"].apply(lambda p: str(root / p))] on the rows read
    from the manifest. *)
Definition absolute_file_paths (root : PyPath.path) (df : list ManifestRecord)
    : list ManifestRecord :=
  map (fun r => {| file_path := str_truediv root (file_path r);
                   speaker_id := speaker_id r;
                   duration_ms := duration_ms r;
                   split := split r;
                   rating := rating r |}) df.

Section Splits.

(** A row of the dataset and its [split] column; the casts of
    [Dataset.from_pandas] leave that column as it is. *)
Variable Row : Type.
Variable split_of : Row -> string.

(** [ds.filter(lambda ex, split=split: ex["split"] == split)] *)
Definition filter_split (split : string) (ds : list Row) : list Row :=
  List.filter (fun ex => String.eqb (split_of ex) split) ds.

(** The dict comprehension of lines 26 to 29. *)
Definition splits (ds : list Row) : gmap string (list Row) :=
  foldl (fun d split => <[split := filter_split split ds]> d) ∅
    ["train"; "val"; "test"].

End Splits.

End Hub.

(** ** More notions the statements use *)


(** The rows that a run of the generator yields, in order. *)
Definition rows_of (evs : list event) : list ManifestRecord :=
  omap (fun ev => match ev with Yield row => Some row | Warn _ => None end) evs.

(** The paths that a run of the generator warns about, in order. *)
Definition warnings_of (evs : list event) : list string :=
  omap (fun ev => match ev with Warn rel_path => Some rel_path | Yield _ => None end) evs.

(** One line per row: [json.dumps(row) + "\n"]. *)
Definition jsonl (json_dumps : ManifestRecord -> string)
    (rows : list ManifestRecord) : string :=
  foldr (fun row acc => json_dumps row +:+ newline +:+ acc) "" rows.

(** The name of the folder that holds the entry [rel] of the listing of
    [root]. *)
Definition folder_name (root rel : PyPath.path) : string :=
  match rev rel with
  | _ :: d :: _ => d
  | [_] => PyPath.name root
  | [] => PyPath.name (PyPath.parent root)
  end.

(** A path component that a POSIX path keeps as it is and that holds no
    backslash. *)
Definition plain_component (c : string) : bool :=
  negb (String.eqb c "") && negb (String.eqb c ".")
  && negb (occurs "/" c) && negb (occurs "\" c).

(** ** Sample inputs with backslashes and with mixed splits *)

Module SampleWin.

(** A tree listed on a platform whose separator is the backslash: a
    text file and two audio files in two folders. *)
Definition tree : audio_env :=
  {| os_sep := "\";
     rglob_all := [["notes.txt"]; ["spk1"; "a.WAV"]; ["spk2"; "d.wav"]];
     is_file := fun _ => true;
     wave_open := fun p =>
       if bool_decide (p = Sample.root ++ ["spk2"; "d.wav"]) then Ok (8000, 16000)
       else Ok (16000, 16000);
     soundfile := Raise ImportError |}.

Definition lookup : gmap string (string * float) :=
  {[ "spk1/a.WAV" := ("train", 4.5%float);
     "spk2/d.wav" := ("val", 3%float) ]}.

(** The row of the second audio file. *)
Definition row_d : ManifestRecord :=
  {| file_path := "spk2/d.wav";
     speaker_id := "spk2";
     duration_ms := 500%float;
     split := "val";
     rating := 3%float |}.

End SampleWin.

Module SampleHub.

Definition row (path split : string) : ManifestRecord :=
  {| file_path := path;
     speaker_id := "spk";
     duration_ms := 1000%float;
     split := split;
     rating := 3%float |}.

(** Four rows over the three splits, not grouped. *)
Definition rows : list ManifestRecord :=
  [row "a.wav" "train"; row "b.wav" "test"; row "c.wav" "val"; row "d.wav" "train"].

End SampleHub.

(** * Properties *)

(** ** The library functions on samples *)

Example float_of_str_samples :
  PyNum.float_of_str " 4.5 " = Ok 4.5%float
  /\ PyNum.float_of_str "1_0e-1" = Ok 1%float
  /\ PyNum.float_of_str "-.5" = Ok (-0.5)%float
  /\ PyNum.float_of_str "NaN" = Ok nan
  /\ PyNum.float_of_str "1e400" = Ok infinity
  /\ PyNum.float_of_str "4,5" = Raise (ValueError "could not convert string to float")
  /\ PyNum.float_of_str "" = Raise (ValueError "could not convert string to float").
Proof. repeat split; vm_compute; reflexivity. Qed.

Example int_to_float_samples :
  PyNum.int_to_float 16000 = Ok 16000%float
  /\ PyNum.int_to_float (2 ^ 53 + 1) = Ok 9007199254740992%float
  /\ PyNum.int_to_float (10 ^ 400) = Raise OverflowError.
Proof. repeat split; vm_compute; reflexivity. Qed.

Example suffix_samples :
  PyPath.suffix ["spk1"; "a.WAV"] = ".WAV"
  /\ PyPath.suffix ["a.tar.ogg"] = ".ogg"
  /\ PyPath.suffix [".wav"] = ""
  /\ PyPath.suffix ["a."] = ""
  /\ PyStr.lower ".WAV" = ".wav"
  /\ PyStr.strip "  a b	" = "a b".
Proof. repeat split; vm_compute; reflexivity. Qed.

(** A short row leaves [None] under the names it has no cell for; of two
    columns with one name the later one counts. *)
Example dict_row_samples :
  dict_row ["stimuli"; "mos"] ["a.wav"] !! "mos" = Some None
  /\ dict_row ["mos"; "stimuli"; "mos"] ["1"; "a.wav"; "2"] !! "mos" = Some (Some "2")
  /\ dict_row ["stimuli"; "mos"] ["a.wav"; "3"; "x"] !! "mos" = Some (Some "3").
Proof. repeat split; vm_compute; reflexivity. Qed.

(** ** The duration probe *)

Lemma header_value_converts (z : Z) :
  0 <= z < 2 ^ 32 ->
  PyNum.int_to_float z = Ok (PyNum.nearest_binary64 z 1).
Proof.
  intros Hz. unfold PyNum.int_to_float.
  assert (Hb : 2 ^ 32 < PyNum.float_overflow_bound) by (vm_compute; reflexivity).
  rewrite Z.abs_eq by lia.
  destruct (Z.leb_spec PyNum.float_overflow_bound z) as [Hle | _]; [lia |].
  destruct (Z.ltb_spec z 0) as [Hneg | _]; [lia | reflexivity].
Qed.

Lemma frames_to_ms_header (frames sr : Z) :
  0 <= frames < 2 ^ 32 -> 0 <= sr < 2 ^ 32 ->
  frames_to_ms frames sr =
    if sr =? 0 then Raise ZeroDivisionError
    else Ok (PyNum.nearest_binary64 frames 1 * 1000
             / PyNum.nearest_binary64 sr 1)%float.
Proof.
  intros Hf Hs. unfold frames_to_ms, PyNum.int_mul_float, PyNum.float_div_int.
  rewrite (header_value_converts frames Hf), (header_value_converts sr Hs).
  reflexivity.
Qed.

Lemma wav_branch (env : audio_env) (p : PyPath.path) (frames sr : Z) :
  String.eqb (PyStr.lower (PyPath.suffix p)) ".wav" = true ->
  wave_open env p = Ok (frames, sr) ->
  audio_duration_ms env p = frames_to_ms frames sr.
Proof.
  intros Hext Hopen. unfold audio_duration_ms. rewrite Hext, Hopen. reflexivity.
Qed.

(** C5. For a path whose suffix is [.wav] in any case and a header that
    reports [frames] frames at [sr] Hz (32-bit fields, [sr] not zero),
    [audio_duration_ms] returns [frames * 1000.0 / sr]; for 16000 frames
    at 16000 Hz that is exactly 1000.0. *)
Theorem wav_duration_from_header (env : audio_env) (p : PyPath.path) (frames sr : Z) :
  String.eqb (PyStr.lower (PyPath.suffix p)) ".wav" = true ->
  wave_open env p = Ok (frames, sr) ->
  0 <= frames < 2 ^ 32 ->
  0 < sr < 2 ^ 32 ->
  audio_duration_ms env p
    = Ok (PyNum.nearest_binary64 frames 1 * 1000
          / PyNum.nearest_binary64 sr 1)%float
  /\ (frames = 16000 -> sr = 16000 ->
      audio_duration_ms env p = Ok 1000%float).
Proof.
  intros Hext Hopen Hf Hs.
  assert (Hms : audio_duration_ms env p
                = Ok (PyNum.nearest_binary64 frames 1 * 1000
                      / PyNum.nearest_binary64 sr 1)%float).
  { rewrite (wav_branch env p frames sr Hext Hopen).
    rewrite frames_to_ms_header by lia.
    destruct (Z.eqb_spec sr 0) as [Hz | _]; [lia | reflexivity]. }
  split; [exact Hms |].
  intros -> ->. rewrite Hms. vm_compute. reflexivity.
Qed.

Lemma wav_duration_from_header_witness :
  audio_duration_ms Sample.tree (Sample.root ++ ["spk1"; "a.WAV"])
    = Ok (PyNum.nearest_binary64 16000 1 * 1000
          / PyNum.nearest_binary64 16000 1)%float
  /\ (16000 = 16000 -> 16000 = 16000 ->
      audio_duration_ms Sample.tree (Sample.root ++ ["spk1"; "a.WAV"])
        = Ok 1000%float).
Proof.
  apply (wav_duration_from_header Sample.tree
           (Sample.root ++ ["spk1"; "a.WAV"]) 16000 16000).
  - reflexivity.
  - reflexivity.
  - lia.
  - lia.
Defined.

(** C10. For a [.wav] path whose header reports a sample rate of zero
    the division is not guarded: the probe raises [ZeroDivisionError],
    and over 32-bit header fields it returns a value exactly when the
    sample rate is not zero. *)
Theorem wav_zero_rate_undefined (env : audio_env) (p : PyPath.path) (frames sr : Z) :
  String.eqb (PyStr.lower (PyPath.suffix p)) ".wav" = true ->
  wave_open env p = Ok (frames, sr) ->
  0 <= frames < 2 ^ 32 ->
  0 <= sr < 2 ^ 32 ->
  (sr = 0 -> audio_duration_ms env p = Raise ZeroDivisionError)
  /\ ((exists v, audio_duration_ms env p = Ok v) <-> sr <> 0).
Proof.
  intros Hext Hopen Hf Hs.
  rewrite (wav_branch env p frames sr Hext Hopen).
  rewrite frames_to_ms_header by lia.
  destruct (Z.eqb_spec sr 0) as [Hz | Hnz].
  - split; [reflexivity |].
    split; [intros [v Hv]; discriminate | intros Hne; contradiction].
  - split; [intros Hz; contradiction |].
    split; [intros _; exact Hnz | intros _; eexists; reflexivity].
Qed.

Lemma wav_zero_rate_undefined_witness :
  (0 = 0 ->
   audio_duration_ms Sample.tree (Sample.root ++ ["spk1"; "b.wav"])
     = Raise ZeroDivisionError)
  /\ ((exists v, audio_duration_ms Sample.tree (Sample.root ++ ["spk1"; "b.wav"]) = Ok v)
      <-> 0 <> 0).
Proof.
  apply (wav_zero_rate_undefined Sample.tree
           (Sample.root ++ ["spk1"; "b.wav"]) 10 0).
  - reflexivity.
  - reflexivity.
  - lia.
  - lia.
Defined.

(** C9. For a path whose suffix is not [.wav], when the soundfile module
    cannot be imported, the probe fails with the [RuntimeError] whose
    message names the suffix, tells to install soundfile and offers
    conversion to WAV. *)
Theorem soundfile_missing_error (env : audio_env) (p : PyPath.path) :
  String.eqb (PyStr.lower (PyPath.suffix p)) ".wav" = false ->
  soundfile env = Raise ImportError ->
  audio_duration_ms env p
    = Raise (RuntimeError
               ("Cannot read " +:+ PyPath.suffix p
                  +:+ "; install `pip install soundfile` or convert to WAV.")).
Proof.
  intros Hext Himp. unfold audio_duration_ms. rewrite Hext, Himp. reflexivity.
Qed.

Lemma soundfile_missing_error_witness :
  audio_duration_ms Sample.tree (Sample.root ++ ["spk2"; "d.flac"])
    = Raise (RuntimeError
               "Cannot read .flac; install `pip install soundfile` or convert to WAV.").
Proof.
  apply (soundfile_missing_error Sample.tree (Sample.root ++ ["spk2"; "d.flac"]));
    reflexivity.
Defined.

(** ** The manifest loop *)

Section Loop.

Variable env : audio_env.
Variable root : PyPath.path.
Variable split_map : gmap string (string * float).

Local Abbreviation loop := (build_manifest_loop env root split_map).

Lemma relative_to_app (rel : PyPath.path) :
  PyPath.relative_to (root ++ rel) root = Ok rel.
Proof.
  induction root as [| r root' IH]; simpl.
  - destruct rel; reflexivity.
  - rewrite String.eqb_refl. exact IH.
Qed.

Lemma loop_skip (audio : PyPath.path) (rest : list PyPath.path) :
  is_audio_file env audio = false ->
  loop (audio :: rest) = loop rest.
Proof.
  intros H. apply negb_false_iff in H. simpl. rewrite H. reflexivity.
Qed.

(** One kept entry: a warning, a row, or the end of the run. *)
Lemma loop_keep (rel : PyPath.path) (rest : list PyPath.path) :
  is_audio_file env (root ++ rel) = true ->
  loop ((root ++ rel) :: rest) =
    match split_map !! rel_path_of env rel with
    | None => then_events (Warn (rel_path_of env rel)) (loop rest)
    | Some (split, rating) =>
        match audio_duration_ms env (root ++ rel) with
        | Raise e => ([], Some e)
        | Ok duration =>
            then_events
              (Yield {| file_path := rel_path_of env rel;
                        speaker_id := PyPath.name (PyPath.parent (root ++ rel));
                        duration_ms := duration;
                        split := split;
                        rating := rating |})
              (loop rest)
        end
    end.
Proof.
  intros H. apply negb_true_iff in H.
  cbn [build_manifest_loop]. rewrite H, relative_to_app. reflexivity.
Qed.

Lemma loop_filter (entries : list PyPath.path) :
  loop entries = loop (List.filter (is_audio_file env) entries).
Proof.
  induction entries as [| audio rest IH]; [reflexivity |].
  cbn [List.filter]. destruct (is_audio_file env audio) eqn:Hkeep.
  - cbn [build_manifest_loop]. rewrite (proj1 (negb_true_iff _) Hkeep).
    destruct (PyPath.relative_to audio root); [| reflexivity].
    destruct (split_map !! _) as [[s r] |]; rewrite IH; reflexivity.
  - rewrite loop_skip by exact Hkeep. exact IH.
Qed.

(** Where an event comes from. *)
Lemma loop_event_origin (rels : list PyPath.path) (i : nat) (ev : event) :
  (loop (map (app root) rels)).1 !! i = Some ev ->
  exists rel,
    rel ∈ rels
    /\ is_audio_file env (root ++ rel) = true
    /\ event_path ev = rel_path_of env rel
    /\ match ev with
       | Yield row => split_map !! file_path row = Some (split row, rating row)
       | Warn rel_path => split_map !! rel_path = None
       end.
Proof.
  revert i. induction rels as [| rel rest IH]; intros i Hev; [discriminate |].
  cbn [map] in Hev.
  destruct (is_audio_file env (root ++ rel)) eqn:Hkeep.
  - rewrite loop_keep in Hev by exact Hkeep.
    destruct (split_map !! rel_path_of env rel) as [[s r] |] eqn:Hlook.
    + destruct (audio_duration_ms env (root ++ rel)); [| discriminate].
      destruct i as [| i]; cbn in Hev.
      * inversion Hev; subst ev. exists rel.
        split; [left |]. split; [exact Hkeep |]. split; [reflexivity | exact Hlook].
      * destruct (IH i Hev) as (rel' & Hin & Hrest).
        exists rel'. split; [right; exact Hin | exact Hrest].
    + destruct i as [| i]; cbn in Hev.
      * inversion Hev; subst ev. exists rel.
        split; [left |]. split; [exact Hkeep |]. split; [reflexivity | exact Hlook].
      * destruct (IH i Hev) as (rel' & Hin & Hrest).
        exists rel'. split; [right; exact Hin | exact Hrest].
  - rewrite loop_skip in Hev by exact Hkeep.
    destruct (IH i Hev) as (rel' & Hin & Hrest).
    exists rel'. split; [right; exact Hin | exact Hrest].
Qed.

(** A run that ends without an exception has one event per kept entry,
    in the order of the listing. *)
Lemma loop_complete (rels : list PyPath.path) :
  (loop (map (app root) rels)).2 = None ->
  map event_path (loop (map (app root) rels)).1
    = map (rel_path_of env)
        (List.filter (fun rel => is_audio_file env (root ++ rel)) rels).
Proof.
  induction rels as [| rel rest IH]; intros Hend; [reflexivity |].
  cbn [map List.filter] in *.
  destruct (is_audio_file env (root ++ rel)) eqn:Hkeep.
  - rewrite loop_keep in * by exact Hkeep.
    destruct (split_map !! rel_path_of env rel) as [[s r] |].
    + destruct (audio_duration_ms env (root ++ rel)); [| discriminate].
      cbn in *. f_equal. exact (IH Hend).
    + cbn in *. f_equal. exact (IH Hend).
  - rewrite loop_skip in * by exact Hkeep. exact (IH Hend).
Qed.

(** The loop over a listing cut in two. *)
Lemma loop_app (xs ys : list PyPath.path) :
  (loop xs).2 = None ->
  loop (xs ++ ys) = ((loop xs).1 ++ (loop ys).1, (loop ys).2).
Proof.
  induction xs as [| audio rest IH]; intros Hend.
  - cbn. destruct (loop ys); reflexivity.
  - cbn [app build_manifest_loop] in *.
    destruct (not_audio_file env audio); [exact (IH Hend) |].
    destruct (PyPath.relative_to audio root); [| discriminate].
    destruct (split_map !! _) as [[s r] |].
    + destruct (audio_duration_ms env audio); [| discriminate].
      cbn in *. rewrite (IH Hend). reflexivity.
    + cbn in *. rewrite (IH Hend). reflexivity.
Qed.

End Loop.

Lemma is_audio_file_spec (env : audio_env) (p : PyPath.path) :
  is_audio_file env p = true <-> supported_ext p /\ is_file env p = true.
Proof.
  unfold is_audio_file, not_audio_file, supported_ext, supported_exts, AUDIO_EXTS.
  rewrite negb_true_iff, orb_false_iff, !negb_false_iff, bool_decide_eq_true.
  rewrite !elem_of_union, !elem_of_singleton, !elem_of_cons, elem_of_nil.
  tauto.
Qed.

(** Two environments that differ only in what the decoders answer for
    files the loop does not keep give the same run. *)
Lemma loop_same_probes (env env' : audio_env) (root : PyPath.path)
    (m : gmap string (string * float)) (entries : list PyPath.path) :
  os_sep env' = os_sep env ->
  (forall p, is_file env' p = is_file env p) ->
  (forall p, is_audio_file env p = true ->
             audio_duration_ms env' p = audio_duration_ms env p) ->
  build_manifest_loop env' root m entries = build_manifest_loop env root m entries.
Proof.
  intros Hsep Hfile Hprobe.
  assert (Hskip : forall p, not_audio_file env' p = not_audio_file env p).
  { intros p. unfold not_audio_file. rewrite Hfile. reflexivity. }
  induction entries as [| audio rest IH]; [reflexivity |].
  cbn [build_manifest_loop]. rewrite Hskip, IH.
  destruct (not_audio_file env audio) eqn:Hk; [reflexivity |].
  apply negb_true_iff in Hk.
  destruct (PyPath.relative_to audio root); [| reflexivity].
  unfold rel_path_of. rewrite Hsep, (Hprobe audio Hk). reflexivity.
Qed.

(** C6. The loop keeps exactly the entries that are files with one of
    the five extensions, compared without regard to case: the run is the
    run over those entries alone, every event is about one of them, what
    the decoders would answer for any other entry has no influence, and
    a run that ends without an exception has one event for each of them. *)
Theorem only_supported_exts_considered (env : audio_env) (root : PyPath.path)
    (m : gmap string (string * float)) :
  (forall p, is_audio_file env p = true
             <-> supported_ext p /\ is_file env p = true)
  /\ build_manifest env root m
     = build_manifest_loop env root m
         (List.filter (is_audio_file env) (rglob env root))
  /\ (forall i ev,
        (build_manifest env root m).1 !! i = Some ev ->
        exists rel,
          rel ∈ rglob_all env
          /\ supported_ext (root ++ rel)
          /\ is_file env (root ++ rel) = true
          /\ event_path ev = rel_path_of env rel)
  /\ (forall env',
        os_sep env' = os_sep env ->
        rglob_all env' = rglob_all env ->
        (forall p, is_file env' p = is_file env p) ->
        (forall p, supported_ext p -> is_file env p = true ->
                   audio_duration_ms env' p = audio_duration_ms env p) ->
        build_manifest env' root m = build_manifest env root m)
  /\ ((build_manifest env root m).2 = None ->
      map event_path (build_manifest env root m).1
        = map (rel_path_of env)
            (List.filter (fun rel => is_audio_file env (root ++ rel))
               (rglob_all env))).
Proof.
  split; [apply is_audio_file_spec |].
  split; [apply loop_filter |].
  split; [| split].
  - intros i ev Hev.
    destruct (loop_event_origin env root m _ i ev Hev) as (rel & Hin & Hkeep & Hpath & _).
    apply is_audio_file_spec in Hkeep as [Hext Hfile].
    exists rel. auto.
  - intros env' Hsep Hlist Hfile Hprobe. unfold build_manifest, rglob.
    rewrite Hlist. apply loop_same_probes; [exact Hsep | exact Hfile |].
    intros p Hkeep. apply is_audio_file_spec in Hkeep as [Hext Hf]. auto.
  - apply loop_complete.
Qed.

Lemma only_supported_exts_considered_witness :
  map event_path
    (build_manifest Sample.tree Sample.root Sample.lookup_a).1
  = map (rel_path_of Sample.tree)
      (List.filter (fun rel => is_audio_file Sample.tree (Sample.root ++ rel))
         (rglob_all Sample.tree)).
Proof.
  apply (only_supported_exts_considered Sample.tree Sample.root Sample.lookup_a).
  reflexivity.
Defined.

(** C3. Every row that [build_manifest] emits has a [file_path] that is
    a key of the lookup it was given; a kept file whose relative path is
    not a key adds one warning and no row, the loop goes on with the
    next entry, and in [main] the warning reaches the diagnostic stream
    and leaves the output and the counter as they are. *)
Theorem emitted_rows_are_keys (json_dumps : ManifestRecord -> string)
    (env : audio_env) (root : PyPath.path) (m : gmap string (string * float)) :
  (forall i row,
     (build_manifest env root m).1 !! i = Some (Yield row) ->
     is_Some (m !! file_path row))
  /\ (forall rel rest,
        is_audio_file env (root ++ rel) = true ->
        m !! rel_path_of env rel = None ->
        build_manifest_loop env root m ((root ++ rel) :: rest)
          = then_events (Warn (rel_path_of env rel))
              (build_manifest_loop env root m rest)
        /\ forall w,
             consume json_dumps w (Warn (rel_path_of env rel))
               = {| written := written w;
                    n_written := n_written w;
                    diagnostics :=
                      diagnostics w ++ [SkippedWarning (rel_path_of env rel)] |}).
Proof.
  split.
  - intros i row Hev.
    destruct (loop_event_origin env root m _ i _ Hev) as (_ & _ & _ & _ & Hlook).
    rewrite Hlook. eexists. reflexivity.
  - intros rel rest Hkeep Hnone. split; [| reflexivity].
    rewrite loop_keep by exact Hkeep. rewrite Hnone. reflexivity.
Qed.

Lemma emitted_rows_are_keys_witness :
  is_Some (Sample.lookup !! file_path Sample.row_a)
  /\ build_manifest_loop Sample.tree Sample.root Sample.lookup_a
       ((Sample.root ++ ["spk1"; "c.wav"]) :: [Sample.root ++ ["spk2"; "d.flac"]])
     = then_events (Warn "spk1/c.wav")
         (build_manifest_loop Sample.tree Sample.root Sample.lookup_a
            [Sample.root ++ ["spk2"; "d.flac"]]).
Proof.
  split.
  - apply (proj1 (emitted_rows_are_keys Sample.dumps Sample.tree Sample.root
                    Sample.lookup) 0%nat Sample.row_a).
    reflexivity.
  - apply (proj2 (emitted_rows_are_keys Sample.dumps Sample.tree Sample.root
                    Sample.lookup_a) ["spk1"; "c.wav"]
             [Sample.root ++ ["spk2"; "d.flac"]]).
    + reflexivity.
    + reflexivity.
Defined.

(** C8. When the probe fails for a kept file that has an entry in the
    lookup, the generator ends with that exception right after the
    events of the entries before it, and [main] dies of the same
    exception: the output holds the rows written so far and nothing of
    the failing file or of the entries after it, and no count is
    printed. *)
Theorem probe_failure_aborts_run (json_dumps : ManifestRecord -> string)
    (aenv : audio_env) (oenv : out_env) (dir : split_dir)
    (root : PyPath.path) (st : run_state) (m : gmap string (string * float))
    (pre : list PyPath.path) (rel : PyPath.path) (post : list PyPath.path)
    (e : exn) :
  read_split_tables dir = Ok m ->
  mkdir_parents oenv = None ->
  open_w oenv = None ->
  rglob_all aenv = pre ++ rel :: post ->
  (build_manifest_loop aenv root m (map (app root) pre)).2 = None ->
  is_audio_file aenv (root ++ rel) = true ->
  is_Some (m !! rel_path_of aenv rel) ->
  audio_duration_ms aenv (root ++ rel) = Raise e ->
  let before := (build_manifest_loop aenv root m (map (app root) pre)).1 in
  let w := foldl (consume json_dumps)
             {| written := ""; n_written := 0%nat; diagnostics := stderr st |}
             before in
  build_manifest aenv root m = (before, Some e)
  /\ main json_dumps aenv oenv dir root st
     = ({| out_file := Some (written w); stderr := diagnostics w |}, Some e).
Proof.
  intros Hread Hmk Hopen Hlist Hpre Hkeep [[s r] Hlook] Hprobe before w.
  assert (Hrun : build_manifest aenv root m = (before, Some e)).
  { unfold build_manifest, rglob. rewrite Hlist, map_app.
    rewrite loop_app by exact Hpre. cbn [map].
    rewrite loop_keep by exact Hkeep. rewrite Hlook, Hprobe.
    cbn. rewrite app_nil_r. reflexivity. }
  split; [exact Hrun |].
  unfold main. rewrite Hread, Hmk, Hopen, Hrun. reflexivity.
Qed.

Lemma probe_failure_aborts_run_witness :
  build_manifest Sample.tree Sample.root Sample.lookup
    = ([Yield Sample.row_a], Some ZeroDivisionError)
  /\ main Sample.dumps Sample.tree Sample.writable Sample.dir_twice
       Sample.root Sample.before
     = ({| out_file := Some ("spk1/a.WAV" +:+ newline); stderr := [] |},
        Some ZeroDivisionError).
Proof.
  apply (probe_failure_aborts_run Sample.dumps Sample.tree Sample.writable
           Sample.dir_twice Sample.root Sample.before Sample.lookup
           [["spk1"]; ["spk1"; "a.WAV"]; ["notes.txt"]]
           ["spk1"; "b.wav"]
           [["spk1"; "c.wav"]; ["spk2"; "d.flac"]]
           ZeroDivisionError).
  - vm_compute. reflexivity.
  - reflexivity.
  - reflexivity.
  - reflexivity.
  - reflexivity.
  - reflexivity.
  - vm_compute. eexists. reflexivity.
  - reflexivity.
Defined.

(** ** The split tables *)

Lemma fold_result_app {A B} (f : A -> B -> result A) (xs ys : list B) (a : A) :
  fold_result f (xs ++ ys) a
    = (let* a' := fold_result f xs a in fold_result f ys a').
Proof.
  revert a. induction xs as [| x xs IH]; intros a; [reflexivity |].
  cbn [app fold_result bind]. destruct (f a x); [apply IH | reflexivity].
Qed.

Lemma read_rows_entries (split_name : string) (fields : list string)
    (rows : list (list string)) (m m' : gmap string (string * float)) :
  fold_result (read_row split_name fields) rows m = Ok m' ->
  exists es,
    Forall2 (fun r e => entry_of r = Ok e)
      (map (fun row => (split_name, fields, row)) rows) es
    /\ m' = foldl store m es.
Proof.
  revert m. induction rows as [| row rows IH]; intros m Hread.
  - inversion Hread. exists []. split; [constructor | reflexivity].
  - cbn [fold_result bind] in Hread.
    destruct (read_row split_name fields m row) as [m1 |] eqn:Hrow; [| discriminate].
    destruct (IH m1 Hread) as (es & Hes & ->).
    unfold read_row in Hrow.
    destruct (row_entry fields row) as [[k r] |] eqn:Hentry; [| discriminate].
    inversion Hrow; subst m1.
    exists ((k, (split_name, r)) :: es). split; [| reflexivity].
    cbn [map]. constructor; [| exact Hes].
    unfold entry_of. cbn. rewrite Hentry. reflexivity.
Qed.

Lemma read_table_entries (dir : split_dir) (split_name : string)
    (m m' : gmap string (string * float)) :
  read_table dir m split_name = Ok m' ->
  exists es,
    Forall2 (fun r e => entry_of r = Ok e) (table_rows dir split_name) es
    /\ m' = foldl store m es.
Proof.
  unfold read_table, table_rows.
  destruct (files dir !! csv_name split_name) as [[e | raw] |]; try discriminate.
  destruct (fieldnames raw) as [fields |]; [| discriminate].
  destruct (decide _); [| discriminate].
  apply read_rows_entries.
Qed.

(** The lookup is what storing the rows one after the other, in the
    order train, val, test, leaves. *)
Lemma read_split_tables_entries (dir : split_dir) (m : gmap string (string * float)) :
  read_split_tables dir = Ok m ->
  exists es,
    Forall2 (fun r e => entry_of r = Ok e) (rows_in_order dir) es
    /\ m = foldl store ∅ es.
Proof.
  unfold read_split_tables, split_names, rows_in_order. cbn [fold_result bind].
  intros Hread.
  destruct (read_table dir ∅ "train") as [m1 |] eqn:H1;
    cbn [bind] in Hread; [| discriminate].
  destruct (read_table dir m1 "val") as [m2 |] eqn:H2;
    cbn [bind] in Hread; [| discriminate].
  destruct (read_table dir m2 "test") as [m3 |] eqn:H3;
    cbn [bind] in Hread; [| discriminate].
  inversion Hread; subst m3.
  destruct (read_table_entries _ _ _ _ H1) as (es1 & Hes1 & ->).
  destruct (read_table_entries _ _ _ _ H2) as (es2 & Hes2 & ->).
  destruct (read_table_entries _ _ _ _ H3) as (es3 & Hes3 & ->).
  exists (es1 ++ es2 ++ es3). split.
  - repeat apply Forall2_app; assumption.
  - rewrite !foldl_app. reflexivity.
Qed.

Lemma store_notin (m : gmap string (string * float))
    (es : list (string * (string * float))) (k : string) :
  k ∉ es.*1 -> foldl store m es !! k = m !! k.
Proof.
  revert m. induction es as [| [k' v'] es IH]; intros m Hnotin; [reflexivity |].
  cbn [fmap list_fmap fst] in Hnotin. apply not_elem_of_cons in Hnotin as [Hne Hrest].
  cbn [foldl]. rewrite (IH _ Hrest). unfold store. cbn.
  apply lookup_insert_ne. congruence.
Qed.

Lemma store_last (m : gmap string (string * float))
    (es1 es2 : list (string * (string * float))) (k : string) (v : string * float) :
  k ∉ es2.*1 -> foldl store m (es1 ++ (k, v) :: es2) !! k = Some v.
Proof.
  intros Hnotin. rewrite foldl_app. cbn [foldl].
  rewrite (store_notin _ _ _ Hnotin). unfold store. cbn.
  apply lookup_insert_eq.
Qed.

Lemma store_origin (m : gmap string (string * float))
    (es : list (string * (string * float))) (k : string) (v : string * float) :
  foldl store m es !! k = Some v -> (k, v) ∈ es \/ m !! k = Some v.
Proof.
  revert m. induction es as [| [k' v'] es IH]; intros m Hlook; [right; exact Hlook |].
  cbn [foldl] in Hlook. destruct (IH _ Hlook) as [Hin | Hm].
  - left. right. exact Hin.
  - unfold store in Hm. cbn in Hm.
    destruct (decide (k' = k)) as [-> | Hne].
    + rewrite lookup_insert_eq in Hm. inversion Hm; subst. left. left.
    + rewrite lookup_insert_ne in Hm by exact Hne. right. exact Hm.
Qed.

(** C4. When two rows give the same key, within one table or across the
    tables read in the order train, val, test, the lookup returned holds
    the pair of the later row (the last one if there are more): the read
    succeeds, nothing checks that keys are unique. *)
Theorem later_row_replaces_earlier (dir : split_dir)
    (m : gmap string (string * float)) :
  read_split_tables dir = Ok m ->
  exists es,
    Forall2 (fun r e => entry_of r = Ok e) (rows_in_order dir) es
    /\ forall es1 k v1 es2 v2 es3,
         es = es1 ++ (k, v1) :: es2 ++ (k, v2) :: es3 ->
         k ∉ es3.*1 ->
         m !! k = Some v2.
Proof.
  intros Hread.
  destruct (read_split_tables_entries dir m Hread) as (es & Hes & ->).
  exists es. split; [exact Hes |].
  intros es1 k v1 es2 v2 es3 -> Hlast.
  replace (es1 ++ (k, v1) :: es2 ++ (k, v2) :: es3)
    with ((es1 ++ (k, v1) :: es2) ++ (k, v2) :: es3)
    by (rewrite <- app_assoc; reflexivity).
  apply store_last. exact Hlast.
Qed.

Lemma later_row_replaces_earlier_witness :
  exists es,
    Forall2 (fun r e => entry_of r = Ok e) (rows_in_order Sample.dir_twice) es
    /\ forall es1 k v1 es2 v2 es3,
         es = es1 ++ (k, v1) :: es2 ++ (k, v2) :: es3 ->
         k ∉ es3.*1 ->
         Sample.lookup !! k = Some v2.
Proof.
  apply (later_row_replaces_earlier Sample.dir_twice Sample.lookup).
  vm_compute. reflexivity.
Defined.

(** The sample with a path rated in [train.csv] and again in
    [test.csv] keeps the rating of [test.csv]. *)
Example twice_rated_keeps_test :
  read_split_tables Sample.dir_twice = Ok Sample.lookup
  /\ Sample.lookup !! "spk1/a.WAV" = Some ("test", 2%float).
Proof. split; vm_compute; reflexivity. Qed.

(** C1, as stated, fails: the reader accepts a table with the row
    [a.wav,7.5] and stores the rating 7.5, which is above 5.0. *)
Lemma rating_above_range_accepted :
  exists m,
    read_split_tables Sample.dir_rating_7_5 = Ok m
    /\ m !! "a.wav" = Some ("train", 7.5%float)
    /\ rating_in_range 7.5%float = false.
Proof.
  exists {[ "a.wav" := ("train", 7.5%float) ]}.
  repeat split; vm_compute; reflexivity.
Qed.

(** C1, amended. For three tables that the reader accepts and whose mos
    cells all parse to values between 1.0 and 5.0, every entry of the
    lookup, and so the rating of every row emitted with it, is between
    1.0 and 5.0; the reader itself checks no range. *)
Theorem ratings_in_range_when_cells_are (dir : split_dir)
    (m : gmap string (string * float)) :
  read_split_tables dir = Ok m ->
  ratings_in_range dir = true ->
  (forall k s r, m !! k = Some (s, r) -> rating_in_range r = true)
  /\ (forall env root i row,
        (build_manifest env root m).1 !! i = Some (Yield row) ->
        rating_in_range (rating row) = true).
Proof.
  intros Hread Hrange.
  assert (Hentries : forall k s r, m !! k = Some (s, r) -> rating_in_range r = true).
  { destruct (read_split_tables_entries dir m Hread) as (es & Hes & ->).
    intros k s r Hlook.
    destruct (store_origin _ _ _ _ Hlook) as [Hin | Hempty];
      [| rewrite lookup_empty in Hempty; discriminate].
    apply list_elem_of_lookup in Hin as [j Hj].
    destruct (Forall2_lookup_r _ _ _ _ _ Hes Hj) as (row & Hrow & Hentry).
    unfold ratings_in_range in Hrange. rewrite forallb_forall in Hrange.
    specialize (Hrange row). rewrite Hentry in Hrange. apply Hrange.
    apply list_elem_of_In. apply (list_elem_of_lookup_2 _ j). exact Hrow. }
  split; [exact Hentries |].
  intros env root i row Hev.
  destruct (loop_event_origin env root m _ i _ Hev) as (_ & _ & _ & _ & Hlook).
  exact (Hentries _ _ _ Hlook).
Qed.

Lemma ratings_in_range_when_cells_are_witness :
  (forall k s r, Sample.lookup !! k = Some (s, r) -> rating_in_range r = true)
  /\ (forall env root i row,
        (build_manifest env root Sample.lookup).1 !! i = Some (Yield row) ->
        rating_in_range (rating row) = true).
Proof.
  apply (ratings_in_range_when_cells_are Sample.dir_twice Sample.lookup).
  - vm_compute. reflexivity.
  - vm_compute. reflexivity.
Defined.

Lemma read_split_tables_absent (dir : split_dir) (split_name : string)
    (pre post : list string) :
  split_names = pre ++ split_name :: post ->
  files dir !! csv_name split_name = None ->
  read_split_tables dir =
    match fold_result (read_table dir) pre ∅ with
    | Ok _ =>
        Raise (FileNotFoundError
                 ("Expected " +:+ dir_prefix dir +:+ csv_name split_name))
    | Raise e => Raise e
    end.
Proof.
  intros Hsplit Habsent. unfold read_split_tables.
  rewrite Hsplit, fold_result_app.
  destruct (fold_result (read_table dir) pre ∅) as [m0 | e]; [| reflexivity].
  cbn [bind fold_result]. unfold read_table at 1. rewrite Habsent. reflexivity.
Qed.

(** C2, as stated, fails: with [train.csv] lacking the mos column and
    [val.csv] absent, the run dies of the [ValueError] for [train.csv],
    not of a [FileNotFoundError]. *)
Lemma absent_table_other_error :
  files Sample.dir_bad_train_no_val !! csv_name "val" = None
  /\ main Sample.dumps Sample.tree Sample.writable
       Sample.dir_bad_train_no_val Sample.root Sample.before
     = (Sample.before,
        Some (ValueError
                "split/train.csv must contain 'stimuli' and 'mos' columns.")).
Proof. split; vm_compute; reflexivity. Qed.

(** C2, amended. If one of [train.csv], [val.csv], [test.csv] is absent,
    the run dies before the output is created or truncated: the output
    path and the diagnostic stream are as before. The exception is the
    [FileNotFoundError] for the absent table when the tables before it,
    in the order train, val, test, are read without error, and otherwise
    the exception that reading those raises. *)
Theorem absent_table_aborts_before_output (json_dumps : ManifestRecord -> string)
    (aenv : audio_env) (oenv : out_env) (dir : split_dir)
    (root : PyPath.path) (st : run_state) (split_name : string) :
  split_name ∈ split_names ->
  files dir !! csv_name split_name = None ->
  exists e,
    main json_dumps aenv oenv dir root st = (st, Some e)
    /\ forall pre post,
         split_names = pre ++ split_name :: post ->
         match fold_result (read_table dir) pre ∅ with
         | Ok _ =>
             e = FileNotFoundError
                   ("Expected " +:+ dir_prefix dir +:+ csv_name split_name)
         | Raise e' => e = e'
         end.
Proof.
  intros Hin Habsent.
  destruct (list_elem_of_split _ _ Hin) as (pre0 & post0 & Hsplit0).
  pose proof (read_split_tables_absent dir split_name pre0 post0 Hsplit0 Habsent)
    as Hread0.
  assert (Hfail : exists e, read_split_tables dir = Raise e).
  { rewrite Hread0. destruct (fold_result (read_table dir) pre0 ∅); eexists; reflexivity. }
  destruct Hfail as [e He]. exists e. split.
  - unfold main. rewrite He. reflexivity.
  - intros pre post Hsplit.
    pose proof (read_split_tables_absent dir split_name pre post Hsplit Habsent)
      as Hread.
    rewrite He in Hread.
    destruct (fold_result (read_table dir) pre ∅); inversion Hread; reflexivity.
Qed.

Lemma absent_table_aborts_before_output_witness :
  exists e,
    main Sample.dumps Sample.tree Sample.writable Sample.dir_no_test
      Sample.root Sample.before = (Sample.before, Some e)
    /\ forall pre post,
         split_names = pre ++ "test" :: post ->
         match fold_result (read_table Sample.dir_no_test) pre ∅ with
         | Ok _ =>
             e = FileNotFoundError
                   ("Expected " +:+ dir_prefix Sample.dir_no_test +:+ csv_name "test")
         | Raise e' => e = e'
         end.
Proof.
  apply (absent_table_aborts_before_output Sample.dumps Sample.tree
           Sample.writable Sample.dir_no_test Sample.root Sample.before "test").
  - unfold split_names. apply list_elem_of_In. simpl. tauto.
  - vm_compute. reflexivity.
Defined.

(** The sample without [test.csv]: the run dies of the
    [FileNotFoundError] and the old output is still there. *)
Example no_test_table_run :
  main Sample.dumps Sample.tree Sample.writable Sample.dir_no_test
    Sample.root Sample.before
  = (Sample.before, Some (FileNotFoundError "Expected split/test.csv")).
Proof. vm_compute. reflexivity. Qed.

(** * Further properties *)

(** ** The reader of the split tables *)

Lemma columns_present (fields : list string) :
  ({[ "stimuli"; "mos" ]} : gset string) ∖ list_to_set fields = ∅
  <-> "stimuli" ∈ fields /\ "mos" ∈ fields.
Proof.
  rewrite <- !(elem_of_list_to_set (C := gset string)).
  generalize (list_to_set fields : gset string) as have. intros have.
  split.
  - intros Hempty. split.
    + destruct (decide ("stimuli" ∈ have)) as [Hin | Hout]; [exact Hin |].
      exfalso. apply (not_elem_of_empty (C := gset string) "stimuli").
      rewrite <- Hempty. apply elem_of_difference. split; [| exact Hout].
      apply elem_of_union. left. apply elem_of_singleton. reflexivity.
    + destruct (decide ("mos" ∈ have)) as [Hin | Hout]; [exact Hin |].
      exfalso. apply (not_elem_of_empty (C := gset string) "mos").
      rewrite <- Hempty. apply elem_of_difference. split; [| exact Hout].
      apply elem_of_union. right. apply elem_of_singleton. reflexivity.
  - intros [Hs Hm]. apply elem_of_equiv_empty_L. intros x Hx.
    apply elem_of_difference in Hx as [Hx Hout]. apply Hout.
    apply elem_of_union in Hx as [Hx | Hx];
      apply elem_of_singleton in Hx; subst x; assumption.
Qed.

Lemma table_rows_split (dir : split_dir) (split_name : string)
    (r : string * list string * list string) :
  r ∈ table_rows dir split_name -> r.1.1 = split_name.
Proof.
  unfold table_rows.
  destruct (files dir !! csv_name split_name) as [[e | raw] |];
    try (intros H; apply elem_of_nil in H; contradiction).
  destruct (fieldnames raw) as [fields |];
    [| intros H; apply elem_of_nil in H; contradiction].
  intros H. apply list_elem_of_fmap in H as (row & -> & _). reflexivity.
Qed.

Lemma rows_in_order_table (dir : split_dir) (r : string * list string * list string) :
  r ∈ rows_in_order dir -> r.1.1 ∈ split_names /\ r ∈ table_rows dir r.1.1.
Proof.
  unfold rows_in_order, split_names. rewrite !elem_of_app.
  intros [H | [H | H]]; pose proof (table_rows_split _ _ _ H) as Hs;
    rewrite Hs; (split; [| exact H]).
  - left.
  - right. left.
  - right. right. left.
Qed.

(** What a row that is read without error holds. *)
Lemma row_entry_inv (fields row : list string) (k : string) (r : float) :
  row_entry fields row = Ok (k, r) ->
  exists s x,
    dict_row fields row !! "stimuli" = Some (Some s)
    /\ dict_row fields row !! "mos" = Some (Some x)
    /\ k = PyStr.replace "\" "/" (PyStr.strip s)
    /\ PyNum.float_of_str x = Ok r.
Proof.
  unfold row_entry, getitem.
  destruct (dict_row fields row !! "stimuli") as [[s |] |]; cbn [bind]; try discriminate.
  destruct (dict_row fields row !! "mos") as [[x |] |]; cbn [bind PyNum.py_float];
    try discriminate.
  destruct (PyNum.float_of_str x) as [r' |] eqn:Hx; cbn [bind]; [| discriminate].
  intros H. inversion H; subst. exists s, x. auto.
Qed.

(** Where an entry of the lookup comes from. *)
Lemma lookup_entry_origin (dir : split_dir) (m : gmap string (string * float))
    (k s : string) (r : float) :
  read_split_tables dir = Ok m ->
  m !! k = Some (s, r) ->
  s ∈ split_names
  /\ exists fields row,
       (s, fields, row) ∈ table_rows dir s
       /\ row_entry fields row = Ok (k, r).
Proof.
  intros Hread Hlook.
  destruct (read_split_tables_entries dir m Hread) as (es & Hes & ->).
  destruct (store_origin _ _ _ _ Hlook) as [Hin | Hempty];
    [| rewrite lookup_empty in Hempty; discriminate].
  apply list_elem_of_lookup in Hin as [j Hj].
  destruct (Forall2_lookup_r _ _ _ _ _ Hes Hj) as ([[s0 fields] row] & Hrow & Hentry).
  apply list_elem_of_lookup_2 in Hrow.
  destruct (rows_in_order_table dir _ Hrow) as [Hsplit Htable]. cbn in Hsplit, Htable.
  unfold entry_of in Hentry. cbn in Hentry.
  destruct (row_entry fields row) as [[k' r'] |] eqn:Hre; cbn in Hentry;
    [| discriminate].
  inversion Hentry; subst. split; [exact Hsplit |].
  exists fields, row. split; [exact Htable | exact Hre].
Qed.

(** X1. Every entry of the lookup carries the name of one of the three
    splits, and it is the key and the rating of a data row of the table
    of that split. *)
Theorem entries_carry_their_table (dir : split_dir)
    (m : gmap string (string * float)) (k s : string) (r : float) :
  read_split_tables dir = Ok m ->
  m !! k = Some (s, r) ->
  (s = "train" \/ s = "val" \/ s = "test")
  /\ exists raw fields row,
       files dir !! csv_name s = Some (Table raw)
       /\ fieldnames raw = Some fields
       /\ row ∈ data_rows raw
       /\ row_entry fields row = Ok (k, r).
Proof.
  intros Hread Hlook.
  destruct (lookup_entry_origin dir m k s r Hread Hlook)
    as (Hsplit & fields & row & Htable & Hentry).
  split.
  - unfold split_names in Hsplit.
    rewrite !elem_of_cons, elem_of_nil in Hsplit. tauto.
  - unfold table_rows in Htable.
    destruct (files dir !! csv_name s) as [[e | raw] |];
      try (apply elem_of_nil in Htable; contradiction).
    destruct (fieldnames raw) as [fields' |] eqn:Hfields;
      [| apply elem_of_nil in Htable; contradiction].
    apply list_elem_of_fmap in Htable as (row' & Heq & Hin).
    inversion Heq; subst. exists raw, fields', row'. auto.
Qed.

Lemma entries_carry_their_table_witness :
  ("test" = "train" \/ "test" = "val" \/ "test" = "test")
  /\ exists raw fields row,
       files Sample.dir_twice !! csv_name "test" = Some (Table raw)
       /\ fieldnames raw = Some fields
       /\ row ∈ data_rows raw
       /\ row_entry fields row = Ok ("spk1/a.WAV", 2%float).
Proof.
  apply (entries_carry_their_table Sample.dir_twice Sample.lookup
           "spk1/a.WAV" "test" 2%float).
  - vm_compute. reflexivity.
  - vm_compute. reflexivity.
Defined.

Lemma store_size (m : gmap string (string * float))
    (es : list (string * (string * float))) :
  (size (foldl store m es) <= size m + length es)%nat.
Proof.
  revert m. induction es as [| [k v] es IH]; intros m; cbn [foldl length]; [lia |].
  specialize (IH (store m (k, v))).
  assert (size (store m (k, v)) <= S (size m))%nat.
  { unfold store. cbn. destruct (m !! k) eqn:Hk.
    - rewrite map_size_insert_Some by eauto. lia.
    - rewrite map_size_insert_None by exact Hk. lia. }
  lia.
Qed.

(** X2. The lookup has at most as many entries as the three tables have
    data rows. *)
Theorem lookup_size_bound (dir : split_dir) (m : gmap string (string * float)) :
  read_split_tables dir = Ok m ->
  (size m <= length (rows_in_order dir))%nat.
Proof.
  intros Hread.
  destruct (read_split_tables_entries dir m Hread) as (es & Hes & ->).
  rewrite (Forall2_length _ _ _ Hes).
  pose proof (store_size ∅ es) as Hsize. rewrite map_size_empty in Hsize. lia.
Qed.

Lemma lookup_size_bound_witness :
  (size Sample.lookup <= length (rows_in_order Sample.dir_twice))%nat.
Proof.
  apply (lookup_size_bound Sample.dir_twice Sample.lookup).
  vm_compute. reflexivity.
Defined.

(** *** Keys *)

Lemma lstrip_head (s : string) :
  match PyStr.lstrip s with
  | String c _ => PyStr.isspace c = false
  | EmptyString => True
  end.
Proof.
  induction s as [| c s IH]; [exact I |].
  cbn [PyStr.lstrip]. destruct (PyStr.isspace c) eqn:Hc; [exact IH | exact Hc].
Qed.

Lemma lstrip_fixed (t : string) :
  match t with
  | String c _ => PyStr.isspace c = false
  | EmptyString => True
  end ->
  PyStr.lstrip t = t.
Proof.
  destruct t as [| c t]; [reflexivity |].
  intros Hc. cbn [PyStr.lstrip]. rewrite Hc. reflexivity.
Qed.

Lemma rstrip_head (t : string) :
  match t with
  | String c _ => PyStr.isspace c = false
  | EmptyString => True
  end ->
  match PyStr.rstrip t with
  | String c _ => PyStr.isspace c = false
  | EmptyString => True
  end.
Proof.
  destruct t as [| c t]; [intros _; exact I |].
  intros Hc. cbn [PyStr.rstrip]. destruct (PyStr.rstrip t); [rewrite Hc |]; exact Hc.
Qed.

Lemma rstrip_idem (s : string) : PyStr.rstrip (PyStr.rstrip s) = PyStr.rstrip s.
Proof.
  induction s as [| c s IH]; [reflexivity |].
  cbn [PyStr.rstrip]. destruct (PyStr.rstrip s) as [| d r] eqn:Hr.
  - destruct (PyStr.isspace c) eqn:Hc; [reflexivity |].
    cbn [PyStr.rstrip]. rewrite Hc. reflexivity.
  - change (PyStr.rstrip (String c (String d r)))
      with (match PyStr.rstrip (String d r) with
            | EmptyString =>
                if PyStr.isspace c then EmptyString else String c EmptyString
            | String a r0 => String c (String a r0)
            end).
    rewrite IH. reflexivity.
Qed.

Lemma strip_idem (s : string) : PyStr.strip (PyStr.strip s) = PyStr.strip s.
Proof.
  unfold PyStr.strip.
  rewrite (lstrip_fixed (PyStr.rstrip (PyStr.lstrip s))).
  - apply rstrip_idem.
  - apply rstrip_head, lstrip_head.
Qed.

Section Replace.

Variables old new : ascii.
Hypothesis old_not_space : PyStr.isspace old = false.
Hypothesis new_not_space : PyStr.isspace new = false.

Lemma isspace_replaced (c : ascii) :
  PyStr.isspace (if Ascii.eqb c old then new else c) = PyStr.isspace c.
Proof.
  destruct (Ascii.eqb_spec c old) as [-> | _]; [| reflexivity].
  rewrite old_not_space, new_not_space. reflexivity.
Qed.

Lemma lstrip_replace (s : string) :
  PyStr.lstrip (PyStr.replace old new s) = PyStr.replace old new (PyStr.lstrip s).
Proof.
  induction s as [| c s IH]; [reflexivity |].
  cbn [PyStr.replace PyStr.lstrip]. rewrite isspace_replaced.
  destruct (PyStr.isspace c); [exact IH | reflexivity].
Qed.

Lemma rstrip_replace (s : string) :
  PyStr.rstrip (PyStr.replace old new s) = PyStr.replace old new (PyStr.rstrip s).
Proof.
  induction s as [| c s IH]; [reflexivity |].
  cbn [PyStr.replace PyStr.rstrip]. rewrite IH, isspace_replaced.
  destruct (PyStr.rstrip s); cbn [PyStr.replace]; [| reflexivity].
  destruct (PyStr.isspace c); reflexivity.
Qed.

Lemma strip_replace (s : string) :
  PyStr.strip (PyStr.replace old new s) = PyStr.replace old new (PyStr.strip s).
Proof. unfold PyStr.strip. rewrite lstrip_replace, rstrip_replace. reflexivity. Qed.

End Replace.

Lemma replace_removes (old new : ascii) (s : string) :
  Ascii.eqb new old = false ->
  occurs old (PyStr.replace old new s) = false.
Proof.
  intros Hne. induction s as [| c s IH]; [reflexivity |].
  cbn [PyStr.replace occurs]. rewrite IH, orb_false_r.
  destruct (Ascii.eqb_spec c old) as [-> | Hc]; [exact Hne |].
  apply Ascii.eqb_neq. exact Hc.
Qed.

(** X3. Every key of the lookup is normalised: stripping it again
    changes nothing, and it holds no backslash. *)
Theorem keys_are_normalised (dir : split_dir) (m : gmap string (string * float))
    (k : string) :
  read_split_tables dir = Ok m ->
  is_Some (m !! k) ->
  PyStr.strip k = k /\ occurs "\" k = false.
Proof.
  intros Hread [[s r] Hlook].
  destruct (lookup_entry_origin dir m k s r Hread Hlook)
    as (_ & fields & row & _ & Hentry).
  destruct (row_entry_inv fields row k r Hentry) as (cell & _ & _ & _ & -> & _).
  split.
  - rewrite strip_replace by reflexivity. rewrite strip_idem. reflexivity.
  - apply replace_removes. reflexivity.
Qed.

Lemma keys_are_normalised_witness :
  PyStr.strip "spk2/d.flac" = "spk2/d.flac" /\ occurs "\" "spk2/d.flac" = false.
Proof.
  apply (keys_are_normalised Sample.dir_twice Sample.lookup "spk2/d.flac").
  - vm_compute. reflexivity.
  - vm_compute. eexists. reflexivity.
Defined.

(** *** Rows *)

Lemma insert_all_notin {V} (m : gmap string V) (l : list (string * V)) (k : string) :
  k ∉ l.*1 ->
  foldl (fun d kv => <[kv.1 := kv.2]> d) m l !! k = m !! k.
Proof.
  revert m. induction l as [| [k' v'] l IH]; intros m Hnotin; [reflexivity |].
  cbn [fmap list_fmap fst] in Hnotin. apply not_elem_of_cons in Hnotin as [Hne Hrest].
  cbn [foldl]. rewrite (IH _ Hrest). cbn. apply lookup_insert_ne. congruence.
Qed.

Lemma insert_all_nodup {V} (m : gmap string V) (l : list (string * V))
    (i : nat) (k : string) (v : V) :
  NoDup l.*1 ->
  l !! i = Some (k, v) ->
  foldl (fun d kv => <[kv.1 := kv.2]> d) m l !! k = Some v.
Proof.
  revert m i. induction l as [| [k' v'] l IH]; intros m i Hnodup Hi; [discriminate |].
  cbn [fmap list_fmap fst] in Hnodup. apply NoDup_cons in Hnodup as [Hfresh Hnodup].
  cbn [foldl]. destruct i as [| i].
  - inversion Hi; subst. rewrite (insert_all_notin _ _ _ Hfresh). cbn.
    apply lookup_insert_eq.
  - exact (IH _ i Hnodup Hi).
Qed.

Lemma cells_lookup (row : list string) (n i : nat) :
  (i < length row + n)%nat ->
  (map Some row ++ replicate n None) !! i = Some (row !! i).
Proof.
  revert i. induction row as [| x row IH]; intros i Hi.
  - cbn in *. apply lookup_replicate_2. exact Hi.
  - destruct i as [| i]; [reflexivity |].
    cbn in *. apply IH. lia.
Qed.

(** [DictReader] finds a cell by the name of its column; a row too short
    for the column has [None] there. *)
Lemma dict_row_lookup (fields row : list string) (i : nat) (k : string) :
  NoDup fields ->
  fields !! i = Some k ->
  dict_row fields row !! k = Some (row !! i).
Proof.
  intros Hnodup Hi. unfold dict_row.
  assert (Hlen : (i < length fields)%nat) by (eapply lookup_lt_Some; exact Hi).
  assert (Hcells : (length fields
                    <= length (map Some row
                               ++ replicate (length fields - length row) None))%nat).
  { rewrite length_app, length_map, length_replicate. lia. }
  apply (insert_all_nodup _ _ i).
  - rewrite fst_zip by exact Hcells. exact Hnodup.
  - apply lookup_zip_with_Some. exists k, (row !! i).
    split; [reflexivity |]. split; [exact Hi |].
    apply cells_lookup. lia.
Qed.

(** X5. Under a header without repeated names the reader finds the two
    cells by the names of their columns, wherever those stand and
    whatever other columns there are: a row too short for the stimuli
    column raises [AttributeError], one too short for the mos column
    [TypeError], and otherwise the row gives the stripped stimuli cell
    with slashes for backslashes and [float] of the mos cell. *)
Theorem row_read_by_column_name (fields row : list string) (i j : nat) :
  NoDup fields ->
  fields !! i = Some "stimuli" ->
  fields !! j = Some "mos" ->
  row_entry fields row =
    match row !! i with
    | None => Raise AttributeError
    | Some s =>
        match row !! j with
        | None => Raise TypeError
        | Some x =>
            let* rating := PyNum.float_of_str x in
            Ok (PyStr.replace "\" "/" (PyStr.strip s), rating)
        end
    end.
Proof.
  intros Hnodup Hi Hj. unfold row_entry, getitem.
  rewrite (dict_row_lookup fields row i _ Hnodup Hi).
  rewrite (dict_row_lookup fields row j _ Hnodup Hj).
  destruct (row !! i) as [s |]; [| reflexivity].
  cbn [bind]. destruct (row !! j) as [x |]; reflexivity.
Qed.

Lemma row_read_by_column_name_witness :
  row_entry ["mos"; "stimuli"; "note"] ["1e0"; " spk1\b.wav "; "x"; "y"] =
    let* rating := PyNum.float_of_str "1e0" in
    Ok (PyStr.replace "\" "/" (PyStr.strip " spk1\b.wav "), rating).
Proof.
  apply (row_read_by_column_name ["mos"; "stimuli"; "note"]
           ["1e0"; " spk1\b.wav "; "x"; "y"] 1 0).
  - compute_done.
  - reflexivity.
  - reflexivity.
Defined.

(** *** Acceptance *)






Lemma read_split_tables_fails_at (dir : split_dir) (split_name : string)
    (pre post : list string) (m0 : gmap string (string * float)) (e : exn) :
  split_names = pre ++ split_name :: post ->
  fold_result (read_table dir) pre ∅ = Ok m0 ->
  read_table dir m0 split_name = Raise e ->
  read_split_tables dir = Raise e.
Proof.
  intros Hsplit Hpre Hfail. unfold read_split_tables.
  rewrite Hsplit, fold_result_app, Hpre. cbn [bind fold_result].
  rewrite Hfail. reflexivity.
Qed.

(** X6. When the tables before it are read without error, a table
    without any row (an empty file) ends the run with a [TypeError], and
    a table whose header lacks the stimuli or the mos column ends it
    with the [ValueError] that names the file; in both cases the output
    path and the diagnostic stream are as before. *)
Theorem header_errors_abort_before_output (json_dumps : ManifestRecord -> string)
    (aenv : audio_env) (oenv : out_env) (dir : split_dir)
    (root : PyPath.path) (st : run_state) (split_name : string)
    (pre post : list string) (m0 : gmap string (string * float))
    (raw : list (list string)) :
  split_names = pre ++ split_name :: post ->
  fold_result (read_table dir) pre ∅ = Ok m0 ->
  files dir !! csv_name split_name = Some (Table raw) ->
  (raw = [] ->
   main json_dumps aenv oenv dir root st = (st, Some TypeError))
  /\ (forall fields body,
        raw = fields :: body ->
        "stimuli" ∉ fields \/ "mos" ∉ fields ->
        main json_dumps aenv oenv dir root st
          = (st, Some (ValueError
                         (dir_prefix dir +:+ csv_name split_name
                            +:+ " must contain 'stimuli' and 'mos' columns.")))).
Proof.
  intros Hsplit Hpre Hfile. split.
  - intros ->. unfold main.
    rewrite (read_split_tables_fails_at dir split_name pre post m0 TypeError Hsplit Hpre);
      [reflexivity |].
    unfold read_table. rewrite Hfile. reflexivity.
  - intros fields body -> Hmissing. unfold main.
    erewrite (read_split_tables_fails_at dir split_name pre post m0 _ Hsplit Hpre);
      [reflexivity |].
    unfold read_table. rewrite Hfile. cbn [fieldnames head].
    destruct (decide _) as [Hpresent | _]; [| reflexivity].
    apply columns_present in Hpresent. tauto.
Qed.

Lemma header_errors_abort_before_output_witness :
  main Sample.dumps Sample.tree Sample.writable Sample.dir_bad_train_no_val
    Sample.root Sample.before
  = (Sample.before,
     Some (ValueError
             (dir_prefix Sample.dir_bad_train_no_val +:+ csv_name "train"
                +:+ " must contain 'stimuli' and 'mos' columns."))).
Proof.
  apply (proj2 (header_errors_abort_before_output Sample.dumps Sample.tree
                  Sample.writable Sample.dir_bad_train_no_val Sample.root
                  Sample.before "train" [] ["val"; "test"] ∅
                  [["stimuli"]; ["a.wav"]] eq_refl eq_refl eq_refl)
           ["stimuli"] [["a.wav"]] eq_refl).
  right. unfold not. intros Hin.
  repeat (apply elem_of_cons in Hin as [Hin | Hin]; [discriminate |]).
  apply elem_of_nil in Hin. exact Hin.
Defined.

(** ** The duration probe, second branch *)

Lemma int_converts (z : Z) :
  0 <= z < 2 ^ 63 ->
  PyNum.int_to_float z = Ok (PyNum.nearest_binary64 z 1).
Proof.
  intros Hz. unfold PyNum.int_to_float.
  assert (Hb : 2 ^ 63 < PyNum.float_overflow_bound) by (vm_compute; reflexivity).
  rewrite Z.abs_eq by lia.
  destruct (Z.leb_spec PyNum.float_overflow_bound z) as [Hle | _]; [lia |].
  destruct (Z.ltb_spec z 0) as [Hneg | _]; [lia | reflexivity].
Qed.

Lemma frames_to_ms_nonzero (n sr : Z) (v : float) :
  frames_to_ms n sr = Ok v -> sr <> 0.
Proof.
  unfold frames_to_ms, PyNum.int_mul_float, PyNum.float_div_int.
  destruct (PyNum.int_to_float n); cbn [bind]; [| discriminate].
  destruct (PyNum.int_to_float sr); cbn [bind]; [| discriminate].
  destruct (Z.eqb_spec sr 0) as [-> | Hne]; [discriminate | intros _; exact Hne].
Qed.

(** X7. For a path whose suffix is not [.wav], with the soundfile module
    at hand and a decoder answer of [n] frames at [sr] Hz (64-bit
    values, [sr] positive), the probe returns [n * 1000.0 / sr]. *)
Theorem soundfile_duration (env : audio_env) (p : PyPath.path)
    (sf : PyPath.path -> result (Z * Z)) (n sr : Z) :
  String.eqb (PyStr.lower (PyPath.suffix p)) ".wav" = false ->
  soundfile env = Ok sf ->
  sf p = Ok (n, sr) ->
  0 <= n < 2 ^ 63 ->
  0 < sr < 2 ^ 63 ->
  audio_duration_ms env p
    = Ok (PyNum.nearest_binary64 n 1 * 1000 / PyNum.nearest_binary64 sr 1)%float.
Proof.
  intros Hext Himp Hsf Hn Hsr. unfold audio_duration_ms.
  rewrite Hext, Himp. cbn [bind]. rewrite Hsf. cbn [bind].
  unfold frames_to_ms, PyNum.int_mul_float, PyNum.float_div_int.
  rewrite (int_converts n) by lia. rewrite (int_converts sr) by lia.
  cbn [bind]. destruct (Z.eqb_spec sr 0) as [Hz | _]; [lia | reflexivity].
Qed.

Lemma soundfile_duration_witness :
  audio_duration_ms
    {| os_sep := "/"; rglob_all := []; is_file := fun _ => true;
       wave_open := fun _ => Raise (OtherError "wave.Error");
       soundfile := Ok (fun _ => Ok (22050, 44100)) |}
    ["data"; "a.flac"]
  = Ok (PyNum.nearest_binary64 22050 1 * 1000
        / PyNum.nearest_binary64 44100 1)%float.
Proof.
  apply (soundfile_duration _ ["data"; "a.flac"] (fun _ => Ok (22050, 44100))).
  - reflexivity.
  - reflexivity.
  - reflexivity.
  - lia.
  - lia.
Defined.

(** X8. In the second branch only an [ImportError] is translated: an
    exception of the import or of the decoder ends the probe as the
    [RuntimeError] about soundfile when it is an [ImportError], and as
    itself otherwise; a zero sample rate still raises
    [ZeroDivisionError]. *)
Theorem only_import_error_translated (env : audio_env) (p : PyPath.path) :
  String.eqb (PyStr.lower (PyPath.suffix p)) ".wav" = false ->
  let translated (e : exn) : result float :=
    match e with
    | ImportError =>
        Raise (RuntimeError
                 ("Cannot read " +:+ PyPath.suffix p
                    +:+ "; install `pip install soundfile` or convert to WAV."))
    | _ => Raise e
    end in
  (forall e, soundfile env = Raise e -> audio_duration_ms env p = translated e)
  /\ (forall sf e, soundfile env = Ok sf -> sf p = Raise e ->
                   audio_duration_ms env p = translated e)
  /\ (forall sf n, soundfile env = Ok sf -> sf p = Ok (n, 0) -> 0 <= n < 2 ^ 63 ->
                   audio_duration_ms env p = Raise ZeroDivisionError).
Proof.
  intros Hext translated. unfold audio_duration_ms. rewrite Hext.
  split; [| split].
  - intros e ->. destruct e; reflexivity.
  - intros sf e -> Hsf. cbn [bind]. rewrite Hsf. destruct e; reflexivity.
  - intros sf n -> Hsf Hn. cbn [bind]. rewrite Hsf. cbn [bind].
    unfold frames_to_ms, PyNum.int_mul_float, PyNum.float_div_int.
    rewrite (int_converts n) by lia. reflexivity.
Qed.

Lemma only_import_error_translated_witness :
  audio_duration_ms
    {| os_sep := "/"; rglob_all := []; is_file := fun _ => true;
       wave_open := fun _ => Ok (1, 1);
       soundfile := Ok (fun _ => Raise (OtherError "LibsndfileError")) |}
    ["data"; "a.mp3"]
  = Raise (OtherError "LibsndfileError").
Proof.
  apply (proj1 (proj2 (only_import_error_translated
                         {| os_sep := "/"; rglob_all := []; is_file := fun _ => true;
                            wave_open := fun _ => Ok (1, 1);
                            soundfile := Ok (fun _ => Raise (OtherError "LibsndfileError")) |}
                         ["data"; "a.mp3"] eq_refl))
           (fun _ => Raise (OtherError "LibsndfileError"))
           (OtherError "LibsndfileError") eq_refl eq_refl).
Defined.

(** X9. A duration is never made up: when the probe returns a value, a
    decoder has answered for that very path with a sample rate other
    than zero, the wave module for a [.wav] suffix and soundfile for any
    other, and the value is [frames * 1000.0 / sr] of that answer. *)
Theorem duration_comes_from_decoder (env : audio_env) (p : PyPath.path) (v : float) :
  audio_duration_ms env p = Ok v ->
  exists n sr,
    sr <> 0
    /\ frames_to_ms n sr = Ok v
    /\ (String.eqb (PyStr.lower (PyPath.suffix p)) ".wav" = true
        /\ wave_open env p = Ok (n, sr)
        \/ String.eqb (PyStr.lower (PyPath.suffix p)) ".wav" = false
           /\ exists sf, soundfile env = Ok sf /\ sf p = Ok (n, sr)).
Proof.
  unfold audio_duration_ms.
  destruct (String.eqb (PyStr.lower (PyPath.suffix p)) ".wav") eqn:Hext.
  - destruct (wave_open env p) as [[n sr] |] eqn:Hopen; cbn [bind]; [| discriminate].
    intros Hms. exists n, sr.
    split; [exact (frames_to_ms_nonzero n sr v Hms) |]. split; [exact Hms |].
    left. split; reflexivity.
  - destruct (soundfile env) as [sf |] eqn:Himp; cbn [bind];
      [| destruct e; discriminate].
    destruct (sf p) as [[n sr] |] eqn:Hsf; cbn [bind];
      [| destruct e; discriminate].
    intros Hms.
    assert (Hv : frames_to_ms n sr = Ok v).
    { destruct (frames_to_ms n sr) as [v' | e]; [exact Hms | destruct e; discriminate]. }
    exists n, sr.
    split; [exact (frames_to_ms_nonzero n sr v Hv) |]. split; [exact Hv |].
    right. split; [reflexivity |]. exists sf. split; [reflexivity | exact Hsf].
Qed.

Lemma duration_comes_from_decoder_witness :
  exists n sr,
    sr <> 0
    /\ frames_to_ms n sr = Ok 1000%float
    /\ (String.eqb (PyStr.lower (PyPath.suffix (Sample.root ++ ["spk1"; "a.WAV"])))
          ".wav" = true
        /\ wave_open Sample.tree (Sample.root ++ ["spk1"; "a.WAV"]) = Ok (n, sr)
        \/ String.eqb (PyStr.lower (PyPath.suffix (Sample.root ++ ["spk1"; "a.WAV"])))
             ".wav" = false
           /\ exists sf, soundfile Sample.tree = Ok sf
                         /\ sf (Sample.root ++ ["spk1"; "a.WAV"]) = Ok (n, sr)).
Proof.
  apply (duration_comes_from_decoder Sample.tree
           (Sample.root ++ ["spk1"; "a.WAV"]) 1000%float).
  vm_compute. reflexivity.
Defined.

(** ** The rows of the manifest *)

Lemma parent_name (root rel : PyPath.path) :
  PyPath.name (PyPath.parent (root ++ rel)) = folder_name root rel.
Proof.
  unfold folder_name, PyPath.name, PyPath.parent.
  destruct (rev rel) as [| x [| d t]] eqn:Hrev.
  - apply (f_equal (@rev string)) in Hrev. rewrite rev_involutive in Hrev.
    subst rel. rewrite app_nil_r. reflexivity.
  - apply (f_equal (@rev string)) in Hrev. rewrite rev_involutive in Hrev.
    subst rel. cbn [rev app]. rewrite removelast_last. reflexivity.
  - apply (f_equal (@rev string)) in Hrev. rewrite rev_involutive in Hrev.
    subst rel. cbn [rev].
    replace (root ++ (rev t ++ [d]) ++ [x]) with ((root ++ rev t ++ [d]) ++ [x])
      by (rewrite <- !app_assoc; reflexivity).
    rewrite removelast_last.
    replace (root ++ rev t ++ [d]) with ((root ++ rev t) ++ [d])
      by (rewrite <- app_assoc; reflexivity).
    apply last_last.
Qed.

Lemma loop_yield_origin (env : audio_env) (root : PyPath.path)
    (m : gmap string (string * float)) (rels : list PyPath.path)
    (i : nat) (row : ManifestRecord) :
  (build_manifest_loop env root m (map (app root) rels)).1 !! i = Some (Yield row) ->
  exists rel,
    rel ∈ rels
    /\ is_audio_file env (root ++ rel) = true
    /\ file_path row = rel_path_of env rel
    /\ speaker_id row = PyPath.name (PyPath.parent (root ++ rel))
    /\ audio_duration_ms env (root ++ rel) = Ok (duration_ms row)
    /\ m !! rel_path_of env rel = Some (split row, rating row).
Proof.
  revert i. induction rels as [| rel rest IH]; intros i Hev; [discriminate |].
  cbn [map] in Hev.
  assert (Hrest : forall j,
             (build_manifest_loop env root m (map (app root) rest)).1 !! j
               = Some (Yield row) ->
             exists rel',
               rel' ∈ rel :: rest
               /\ is_audio_file env (root ++ rel') = true
               /\ file_path row = rel_path_of env rel'
               /\ speaker_id row = PyPath.name (PyPath.parent (root ++ rel'))
               /\ audio_duration_ms env (root ++ rel') = Ok (duration_ms row)
               /\ m !! rel_path_of env rel' = Some (split row, rating row)).
  { intros j Hj. destruct (IH j Hj) as (rel' & Hin & Hmore).
    exists rel'. split; [right; exact Hin | exact Hmore]. }
  destruct (is_audio_file env (root ++ rel)) eqn:Hkeep.
  - rewrite loop_keep in Hev by exact Hkeep.
    destruct (m !! rel_path_of env rel) as [[s r] |] eqn:Hlook.
    + destruct (audio_duration_ms env (root ++ rel)) as [d |] eqn:Hprobe;
        [| discriminate].
      destruct i as [| i]; cbn in Hev; [| exact (Hrest i Hev)].
      inversion Hev; subst row. exists rel. cbn.
      split; [left |]. repeat split; assumption || reflexivity.
    + destruct i as [| i]; cbn in Hev; [discriminate | exact (Hrest i Hev)].
  - rewrite loop_skip in Hev by exact Hkeep. exact (Hrest i Hev).
Qed.

(** X10. An emitted row is made of its file alone: its [speaker_id] is
    the name of the folder that holds the file (the name of the data
    root for a file right under it), its [duration_ms] is what the probe
    returns for the file, and its [split] and [rating] are the entry of
    the lookup under its [file_path]. *)
Theorem row_describes_its_file (env : audio_env) (root : PyPath.path)
    (m : gmap string (string * float)) (i : nat) (row : ManifestRecord) :
  (build_manifest env root m).1 !! i = Some (Yield row) ->
  exists rel,
    rel ∈ rglob_all env
    /\ file_path row = rel_path_of env rel
    /\ speaker_id row = folder_name root rel
    /\ audio_duration_ms env (root ++ rel) = Ok (duration_ms row)
    /\ m !! file_path row = Some (split row, rating row).
Proof.
  intros Hev.
  destruct (loop_yield_origin env root m _ i row Hev)
    as (rel & Hin & _ & Hpath & Hspk & Hprobe & Hlook).
  exists rel. split; [exact Hin |]. split; [exact Hpath |].
  split; [rewrite Hspk; apply parent_name |]. split; [exact Hprobe |].
  rewrite Hpath. exact Hlook.
Qed.

Lemma row_describes_its_file_witness :
  exists rel,
    rel ∈ rglob_all Sample.tree
    /\ file_path Sample.row_a = rel_path_of Sample.tree rel
    /\ speaker_id Sample.row_a = folder_name Sample.root rel
    /\ audio_duration_ms Sample.tree (Sample.root ++ rel)
       = Ok (duration_ms Sample.row_a)
    /\ Sample.lookup !! file_path Sample.row_a
       = Some (split Sample.row_a, rating Sample.row_a).
Proof.
  apply (row_describes_its_file Sample.tree Sample.root Sample.lookup 0%nat).
  reflexivity.
Defined.

(** The entry that a yielded row comes from, and where the run stood
    when it reached that entry. *)
Lemma loop_yield_position (env : audio_env) (root : PyPath.path)
    (m : gmap string (string * float)) (rels : list PyPath.path)
    (i : nat) (row : ManifestRecord) :
  (build_manifest_loop env root m (map (app root) rels)).1 !! i = Some (Yield row) ->
  exists pre rel post,
    rels = pre ++ rel :: post
    /\ build_manifest_loop env root m (map (app root) pre)
       = (take i (build_manifest_loop env root m (map (app root) rels)).1, None)
    /\ is_audio_file env (root ++ rel) = true
    /\ file_path row = rel_path_of env rel
    /\ speaker_id row = PyPath.name (PyPath.parent (root ++ rel))
    /\ audio_duration_ms env (root ++ rel) = Ok (duration_ms row)
    /\ m !! rel_path_of env rel = Some (split row, rating row).
Proof.
  revert i. induction rels as [| rel rest IH]; intros i Hev; [discriminate |].
  cbn [map] in *.
  destruct (is_audio_file env (root ++ rel)) eqn:Hkeep.
  - pose proof (loop_keep env root m rel (map (app root) rest) Hkeep) as Hstep.
    destruct (m !! rel_path_of env rel) as [[s r] |] eqn:Hlook.
    + destruct (audio_duration_ms env (root ++ rel)) as [d |] eqn:Hprobe;
        [| rewrite Hstep in Hev; discriminate].
      rewrite Hstep in Hev |- *. destruct i as [| i]; cbn in Hev.
      * inversion Hev; subst row. exists [], rel, rest. cbn.
        repeat split; assumption || reflexivity.
      * destruct (IH i Hev) as (pre & rel' & post & -> & Hpre & Hmore).
        exists (rel :: pre), rel', post. split; [reflexivity |].
        split; [| exact Hmore].
        cbn [map]. rewrite (loop_keep env root m rel _ Hkeep), Hlook, Hprobe, Hpre.
        reflexivity.
    + rewrite Hstep in Hev |- *. destruct i as [| i]; cbn in Hev; [discriminate |].
      destruct (IH i Hev) as (pre & rel' & post & -> & Hpre & Hmore).
      exists (rel :: pre), rel', post. split; [reflexivity |].
      split; [| exact Hmore].
      cbn [map]. rewrite (loop_keep env root m rel _ Hkeep), Hlook, Hpre.
      reflexivity.
  - pose proof (loop_skip env root m (root ++ rel) (map (app root) rest) Hkeep)
      as Hstep.
    unfold PyPath.path in *. rewrite Hstep in Hev |- *.
    destruct (IH i Hev) as (pre & rel' & post & -> & Hpre & Hmore).
    exists (rel :: pre), rel', post. split; [reflexivity |].
    split; [| exact Hmore].
    cbn [map]. rewrite (loop_skip env root m (root ++ rel) _ Hkeep). exact Hpre.
Qed.

(** C7. The [file_path] of an emitted row is the path of its own file
    relative to the root, as text, with every backslash replaced by a
    forward slash. The file is the entry of the listing at which the run
    yielded the row: a file that the loop keeps, reached after the
    entries before it gave the events before the row, and the one whose
    folder, duration and lookup entry the row carries. *)
Theorem file_path_is_relative_path (env : audio_env) (root : PyPath.path)
    (m : gmap string (string * float)) (i : nat) (row : ManifestRecord) :
  (build_manifest env root m).1 !! i = Some (Yield row) ->
  exists pre rel post,
    rglob_all env = pre ++ rel :: post
    /\ build_manifest_loop env root m (map (app root) pre)
       = (take i (build_manifest env root m).1, None)
    /\ rel ∈ rglob_all env
    /\ is_audio_file env (root ++ rel) = true
    /\ PyPath.relative_to (root ++ rel) root = Ok rel
    /\ file_path row = PyStr.replace "\" "/" (PyPath.str (os_sep env) rel)
    /\ occurs "\" (file_path row) = false
    /\ speaker_id row = PyPath.name (PyPath.parent (root ++ rel))
    /\ audio_duration_ms env (root ++ rel) = Ok (duration_ms row)
    /\ m !! file_path row = Some (split row, rating row).
Proof.
  intros Hev.
  destruct (loop_yield_position env root m _ i row Hev)
    as (pre & rel & post & Hlist & Hpre & Hkeep & Hpath & Hspk & Hprobe & Hlook).
  exists pre, rel, post.
  split; [exact Hlist |]. split; [exact Hpre |].
  split; [rewrite Hlist; apply elem_of_app; right; left |].
  split; [exact Hkeep |]. split; [apply relative_to_app |].
  split; [exact Hpath |].
  split; [rewrite Hpath; apply replace_removes; reflexivity |].
  split; [exact Hspk |]. split; [exact Hprobe |].
  rewrite Hpath. exact Hlook.
Qed.

Lemma file_path_is_relative_path_witness :
  (PyPath.str (os_sep SampleWin.tree) ["spk2"; "d.wav"] = "spk2\d.wav"
   /\ file_path SampleWin.row_d = "spk2/d.wav")
  /\ exists pre rel post,
       rglob_all SampleWin.tree = pre ++ rel :: post
       /\ build_manifest_loop SampleWin.tree Sample.root SampleWin.lookup
            (map (app Sample.root) pre)
          = (take 1 (build_manifest SampleWin.tree Sample.root SampleWin.lookup).1,
             None)
       /\ rel ∈ rglob_all SampleWin.tree
       /\ is_audio_file SampleWin.tree (Sample.root ++ rel) = true
       /\ PyPath.relative_to (Sample.root ++ rel) Sample.root = Ok rel
       /\ file_path SampleWin.row_d
          = PyStr.replace "\" "/" (PyPath.str (os_sep SampleWin.tree) rel)
       /\ occurs "\" (file_path SampleWin.row_d) = false
       /\ speaker_id SampleWin.row_d
          = PyPath.name (PyPath.parent (Sample.root ++ rel))
       /\ audio_duration_ms SampleWin.tree (Sample.root ++ rel)
          = Ok (duration_ms SampleWin.row_d)
       /\ SampleWin.lookup !! file_path SampleWin.row_d
          = Some (split SampleWin.row_d, rating SampleWin.row_d).
Proof.
  split; [split; reflexivity |].
  apply (file_path_is_relative_path SampleWin.tree Sample.root SampleWin.lookup
           1%nat SampleWin.row_d).
  reflexivity.
Defined.

(** ** The output of a run *)

Lemma append_empty_r (s : string) : s +:+ "" = s.
Proof.
  induction s as [| c s IH]; [reflexivity |].
  change (String c (s +:+ "") = String c s). rewrite IH. reflexivity.
Qed.

Lemma append_assoc (s t u : string) : (s +:+ t) +:+ u = s +:+ t +:+ u.
Proof.
  induction s as [| c s IH]; [reflexivity |].
  change (String c ((s +:+ t) +:+ u) = String c (s +:+ t +:+ u)).
  rewrite IH. reflexivity.
Qed.

(** What the loop of [main] leaves after a run of the generator. *)
Lemma consume_all (json_dumps : ManifestRecord -> string) (evs : list event)
    (w : writer) :
  foldl (consume json_dumps) w evs
  = {| written := written w +:+ jsonl json_dumps (rows_of evs);
       n_written := n_written w + length (rows_of evs);
       diagnostics := diagnostics w ++ map SkippedWarning (warnings_of evs) |}.
Proof.
  revert w. induction evs as [| ev evs IH]; intros w.
  - destruct w as [f n d]. cbn.
    rewrite append_empty_r, Nat.add_0_r, app_nil_r. reflexivity.
  - cbn [foldl]. rewrite IH. destruct ev as [k | row]; cbn.
    + rewrite <- app_assoc. reflexivity.
    + rewrite !append_assoc, Nat.add_succ_r. reflexivity.
Qed.

(** [main] from the point where the output is open. *)
Lemma main_after_open (json_dumps : ManifestRecord -> string)
    (aenv : audio_env) (oenv : out_env) (dir : split_dir)
    (root : PyPath.path) (st : run_state) (m : gmap string (string * float)) :
  read_split_tables dir = Ok m ->
  mkdir_parents oenv = None ->
  open_w oenv = None ->
  main json_dumps aenv oenv dir root st
  = ({| out_file :=
          Some (jsonl json_dumps (rows_of (build_manifest aenv root m).1));
        stderr :=
          stderr st
          ++ map SkippedWarning (warnings_of (build_manifest aenv root m).1)
          ++ match (build_manifest aenv root m).2 with
             | None => [WroteEntries (length (rows_of (build_manifest aenv root m).1))]
             | Some _ => []
             end |},
     (build_manifest aenv root m).2).
Proof.
  intros Hread Hmk Hopen. unfold main. rewrite Hread, Hmk, Hopen.
  cbn zeta. rewrite consume_all. cbn.
  destruct (build_manifest aenv root m).2; cbn.
  - rewrite app_nil_r. reflexivity.
  - rewrite <- app_assoc. reflexivity.
Qed.

(** X12. Once the tables are read and the output is open, the output
    holds one line per row that the generator yielded, in order, and
    nothing of what was there before; the diagnostic stream gains one
    warning per skipped file, in order, and, when no exception ends the
    run, the count of the lines written. *)
Theorem output_is_the_yielded_rows (json_dumps : ManifestRecord -> string)
    (aenv : audio_env) (oenv : out_env) (dir : split_dir)
    (root : PyPath.path) (st : run_state) (m : gmap string (string * float)) :
  read_split_tables dir = Ok m ->
  mkdir_parents oenv = None ->
  open_w oenv = None ->
  let t := build_manifest aenv root m in
  main json_dumps aenv oenv dir root st
  = ({| out_file := Some (jsonl json_dumps (rows_of t.1));
        stderr :=
          stderr st ++ map SkippedWarning (warnings_of t.1)
          ++ match t.2 with
             | None => [WroteEntries (length (rows_of t.1))]
             | Some _ => []
             end |},
     t.2).
Proof.
  intros Hread Hmk Hopen t. unfold main. rewrite Hread, Hmk, Hopen.
  fold t. rewrite consume_all. cbn.
  destruct t.2; cbn.
  - rewrite app_nil_r. reflexivity.
  - rewrite <- app_assoc. reflexivity.
Qed.

Lemma output_is_the_yielded_rows_witness :
  main Sample.dumps Sample.tree Sample.writable Sample.dir_twice Sample.root
    Sample.before
  = ({| out_file :=
          Some (jsonl Sample.dumps
                  (rows_of (build_manifest Sample.tree Sample.root Sample.lookup).1));
        stderr :=
          stderr Sample.before
          ++ map SkippedWarning
               (warnings_of (build_manifest Sample.tree Sample.root Sample.lookup).1)
          ++ match (build_manifest Sample.tree Sample.root Sample.lookup).2 with
             | None =>
                 [WroteEntries
                    (length (rows_of
                               (build_manifest Sample.tree Sample.root Sample.lookup).1))]
             | Some _ => []
             end |},
     (build_manifest Sample.tree Sample.root Sample.lookup).2).
Proof.
  apply (output_is_the_yielded_rows Sample.dumps Sample.tree Sample.writable
           Sample.dir_twice Sample.root Sample.before Sample.lookup).
  - vm_compute. reflexivity.
  - reflexivity.
  - reflexivity.
Defined.






(** X13. Whatever happens, a run only adds to the diagnostic stream, and
    it leaves the output path either as it was or holding whole lines,
    one per row of some list of rows. *)
Theorem run_invariants (json_dumps : ManifestRecord -> string)
    (aenv : audio_env) (oenv : out_env) (dir : split_dir)
    (root : PyPath.path) (st : run_state) :
  let after := (main json_dumps aenv oenv dir root st).1 in
  (exists more, stderr after = stderr st ++ more)
  /\ (after = st
      \/ exists rows, out_file after = Some (jsonl json_dumps rows)).
Proof.
  cbn zeta.
  destruct (read_split_tables dir) as [m | e] eqn:Hread.
  - destruct (mkdir_parents oenv) as [e |] eqn:Hmk.
    + unfold main. rewrite Hread, Hmk. cbn.
      split; [exists []; rewrite app_nil_r; reflexivity | left; reflexivity].
    + destruct (open_w oenv) as [e |] eqn:Hopen.
      * unfold main. rewrite Hread, Hmk, Hopen. cbn.
        split; [exists []; rewrite app_nil_r; reflexivity | left; reflexivity].
      * rewrite (main_after_open json_dumps aenv oenv dir root st m
                   Hread Hmk Hopen).
        cbn. split; [eexists; reflexivity | right; eexists; reflexivity].
  - unfold main. rewrite Hread. cbn.
    split; [exists []; rewrite app_nil_r; reflexivity | left; reflexivity].
Qed.

(** ** The upload script *)

Section SplitsFacts.

Variable Row : Type.
Variable split_of : Row -> string.

Local Abbreviation part := (Hub.filter_split Row split_of).

Lemma splits_lookup (ds : list Row) :
  Hub.splits Row split_of ds !! "train" = Some (part "train" ds)
  /\ Hub.splits Row split_of ds !! "val" = Some (part "val" ds)
  /\ Hub.splits Row split_of ds !! "test" = Some (part "test" ds)
  /\ forall s, s <> "train" -> s <> "val" -> s <> "test" ->
               Hub.splits Row split_of ds !! s = None.
Proof.
  unfold Hub.splits. cbn [foldl]. split; [| split; [| split]].
  - rewrite !lookup_insert_ne by discriminate. apply lookup_insert_eq.
  - rewrite lookup_insert_ne by discriminate. apply lookup_insert_eq.
  - apply lookup_insert_eq.
  - intros s H1 H2 H3. rewrite !lookup_insert_ne by congruence. apply lookup_empty.
Qed.

Lemma parts_permutation (ds : list Row) :
  (forall ex, ex ∈ ds ->
     split_of ex = "train" \/ split_of ex = "val" \/ split_of ex = "test") ->
  ds ≡ₚ part "train" ds ++ part "val" ds ++ part "test" ds.
Proof.
  induction ds as [| ex ds IH]; intros Hall; [reflexivity |].
  assert (IH' : ds ≡ₚ part "train" ds ++ part "val" ds ++ part "test" ds).
  { apply IH. intros ex' Hin. apply Hall. right. exact Hin. }
  unfold Hub.filter_split in *. cbn [List.filter].
  destruct (Hall ex) as [-> | [-> | ->]]; [left | | |]; cbn.
  - constructor. exact IH'.
  - rewrite <- Permutation_middle. constructor. exact IH'.
  - rewrite app_assoc, <- Permutation_middle, <- app_assoc.
    constructor. exact IH'.
Qed.

Lemma part_filter (s : string) (ds : list Row) :
  part s ds = filter (fun ex => split_of ex = s) ds.
Proof.
  unfold Hub.filter_split. induction ds as [| ex ds IH]; [reflexivity |].
  cbn [List.filter]. rewrite filter_cons, IH.
  destruct (String.eqb_spec (split_of ex) s) as [Heq | Hne];
    destruct (decide (split_of ex = s)); congruence.
Qed.

(** X14. The dict of line 26 has the three keys train, val and test and
    no other; each holds, in the order of the dataset, the rows whose
    split column is that key, whatever the dataset; and when every row
    has one of the three in that column the three lists together are
    the dataset, row for row. *)
Theorem splits_partition_the_rows (ds : list Row) :
  exists tr va te,
    Hub.splits Row split_of ds = {[ "train" := tr; "val" := va; "test" := te ]}
    /\ tr = filter (fun ex => split_of ex = "train") ds
    /\ va = filter (fun ex => split_of ex = "val") ds
    /\ te = filter (fun ex => split_of ex = "test") ds
    /\ Forall (fun ex => split_of ex = "train") tr
    /\ Forall (fun ex => split_of ex = "val") va
    /\ Forall (fun ex => split_of ex = "test") te
    /\ ((forall ex, ex ∈ ds ->
           split_of ex = "train" \/ split_of ex = "val" \/ split_of ex = "test") ->
        ds ≡ₚ tr ++ va ++ te).
Proof.
  assert (Hpart : forall s, Forall (fun ex => split_of ex = s) (part s ds)).
  { intros s. apply Forall_forall. intros ex Hin. apply list_elem_of_In in Hin.
    apply filter_In in Hin as [_ Heq]. apply String.eqb_eq. exact Heq. }
  exists (part "train" ds), (part "val" ds), (part "test" ds).
  split.
  { apply map_eq. intros s.
    destruct (splits_lookup ds) as (Htr & Hva & Hte & Hother).
    destruct (decide (s = "train")) as [-> | H1].
    { rewrite Htr. symmetry. apply lookup_insert_eq. }
    destruct (decide (s = "val")) as [-> | H2].
    { rewrite Hva. symmetry. rewrite lookup_insert_ne by discriminate.
      apply lookup_insert_eq. }
    destruct (decide (s = "test")) as [-> | H3].
    { rewrite Hte. symmetry. rewrite !lookup_insert_ne by discriminate.
      apply lookup_singleton_eq. }
    rewrite (Hother s H1 H2 H3). symmetry.
    rewrite !lookup_insert_ne by congruence.
    apply lookup_singleton_ne. congruence. }
  split; [apply part_filter |]. split; [apply part_filter |].
  split; [apply part_filter |].
  split; [apply Hpart |]. split; [apply Hpart |]. split; [apply Hpart |].
  apply parts_permutation.
Qed.

End SplitsFacts.

Lemma splits_partition_the_rows_witness :
  exists tr va te,
    Hub.splits ManifestRecord split SampleHub.rows
      = {[ "train" := tr; "val" := va; "test" := te ]}
    /\ tr = [SampleHub.row "a.wav" "train"; SampleHub.row "d.wav" "train"]
    /\ va = [SampleHub.row "c.wav" "val"]
    /\ te = [SampleHub.row "b.wav" "test"]
    /\ SampleHub.rows ≡ₚ tr ++ va ++ te.
Proof.
  destruct (splits_partition_the_rows ManifestRecord split SampleHub.rows)
    as (tr & va & te & Hdict & Htr & Hva & Hte & _ & _ & _ & Hperm).
  exists tr, va, te.
  split; [exact Hdict |].
  split; [rewrite Htr; reflexivity |].
  split; [rewrite Hva; reflexivity |].
  split; [rewrite Hte; reflexivity |].
  apply Hperm. intros ex Hin. unfold SampleHub.rows in Hin.
  repeat (apply elem_of_cons in Hin as [-> | Hin]; [cbn; tauto |]).
  apply elem_of_nil in Hin. contradiction.
Defined.

Lemma absolute_file_paths_split (root : PyPath.path) (df : list ManifestRecord)
    (ex : ManifestRecord) :
  ex ∈ Hub.absolute_file_paths root df ->
  exists row, row ∈ df /\ split ex = split row.
Proof.
  unfold Hub.absolute_file_paths. intros Hin.
  apply list_elem_of_fmap in Hin as (row & -> & Hrow).
  exists row. split; [exact Hrow | reflexivity].
Qed.

Lemma rows_of_yielded (evs : list event) (row : ManifestRecord) :
  row ∈ rows_of evs -> exists i, evs !! i = Some (Yield row).
Proof.
  unfold rows_of. intros Hin.
  apply list_elem_of_omap in Hin as (ev & Hev & Hrow).
  destruct ev as [k | row']; [discriminate |]. inversion Hrow; subst row'.
  apply list_elem_of_lookup in Hev. exact Hev.
Qed.

(** X15. No row of a manifest is lost on the way to the hub: the rows
    that [build_manifest] yields with a lookup of [read_split_tables],
    with their paths made absolute as in line 9, all fall into one of
    the three groups of line 26, and the groups together are those
    rows. *)
Theorem manifest_rows_all_reach_a_split (dir : split_dir)
    (m : gmap string (string * float)) (env : audio_env)
    (root hub_root : PyPath.path) :
  read_split_tables dir = Ok m ->
  let ds := Hub.absolute_file_paths hub_root
              (rows_of (build_manifest env root m).1) in
  ds ≡ₚ Hub.filter_split ManifestRecord split "train" ds
        ++ Hub.filter_split ManifestRecord split "val" ds
        ++ Hub.filter_split ManifestRecord split "test" ds.
Proof.
  intros Hread ds. apply parts_permutation. intros ex Hin.
  apply absolute_file_paths_split in Hin as (row & Hrow & ->).
  apply rows_of_yielded in Hrow as [i Hi].
  destruct (loop_event_origin env root m _ i _ Hi) as (_ & _ & _ & _ & Hlook).
  destruct (lookup_entry_origin dir m _ _ _ Hread Hlook) as [Hsplit _].
  unfold split_names in Hsplit.
  rewrite !elem_of_cons, elem_of_nil in Hsplit. tauto.
Qed.

Lemma manifest_rows_all_reach_a_split_witness :
  Hub.absolute_file_paths Hub.root
    (rows_of (build_manifest Sample.tree Sample.root Sample.lookup).1)
  ≡ₚ Hub.filter_split ManifestRecord split "train"
       (Hub.absolute_file_paths Hub.root
          (rows_of (build_manifest Sample.tree Sample.root Sample.lookup).1))
     ++ Hub.filter_split ManifestRecord split "val"
          (Hub.absolute_file_paths Hub.root
             (rows_of (build_manifest Sample.tree Sample.root Sample.lookup).1))
     ++ Hub.filter_split ManifestRecord split "test"
          (Hub.absolute_file_paths Hub.root
             (rows_of (build_manifest Sample.tree Sample.root Sample.lookup).1)).
Proof.
  apply (manifest_rows_all_reach_a_split Sample.dir_twice Sample.lookup
           Sample.tree Sample.root Hub.root).
  vm_compute. reflexivity.
Defined.

(** *** Paths back from the manifest *)

Lemma occurs_append (c : ascii) (s t : string) :
  occurs c (s +:+ t) = occurs c s || occurs c t.
Proof.
  induction s as [| a s IH]; [reflexivity |].
  change (occurs c (String a (s +:+ t)) = occurs c (String a s) || occurs c t).
  cbn [occurs]. rewrite IH, orb_assoc. reflexivity.
Qed.

Lemma occurs_join (c : ascii) (sep : string) (parts : list string) :
  occurs c sep = false ->
  Forall (fun p => occurs c p = false) parts ->
  occurs c (PyStr.join sep parts) = false.
Proof.
  intros Hsep Hparts. induction Hparts as [| p ps Hp Hps IH]; [reflexivity |].
  destruct ps as [| q ps]; [exact Hp |].
  change (occurs c (p +:+ sep +:+ PyStr.join sep (q :: ps)) = false).
  rewrite !occurs_append, Hp, Hsep, IH. reflexivity.
Qed.

Lemma replace_absent (old new : ascii) (s : string) :
  occurs old s = false -> PyStr.replace old new s = s.
Proof.
  induction s as [| a s IH]; [reflexivity |].
  cbn [occurs PyStr.replace]. intros H. apply orb_false_iff in H as [Ha Hs].
  rewrite Ha, (IH Hs). reflexivity.
Qed.

Lemma split_on_plain (c : ascii) (p : string) :
  occurs c p = false -> Hub.split_on c p = [p].
Proof.
  induction p as [| a p IH]; [reflexivity |].
  cbn [occurs Hub.split_on]. intros H. apply orb_false_iff in H as [Ha Hp].
  rewrite Ha, (IH Hp). reflexivity.
Qed.

Lemma split_on_append (c : ascii) (p t : string) :
  occurs c p = false ->
  Hub.split_on c (p +:+ String c t) = p :: Hub.split_on c t.
Proof.
  induction p as [| a p IH].
  - intros _. change (Hub.split_on c (String c t) = "" :: Hub.split_on c t).
    cbn [Hub.split_on]. rewrite Ascii.eqb_refl. reflexivity.
  - cbn [occurs]. intros H. apply orb_false_iff in H as [Ha Hp].
    change (Hub.split_on c (String a (p +:+ String c t))
            = String a p :: Hub.split_on c t).
    cbn [Hub.split_on]. rewrite Ha, (IH Hp). reflexivity.
Qed.

Lemma split_on_join (parts : list string) :
  parts <> [] ->
  Forall (fun p => occurs "/" p = false) parts ->
  Hub.split_on "/" (PyStr.join "/" parts) = parts.
Proof.
  intros Hne Hparts. induction Hparts as [| p ps Hp Hps IH]; [contradiction |].
  destruct ps as [| q ps]; [exact (split_on_plain "/" p Hp) |].
  change (Hub.split_on "/" (p +:+ String "/" (PyStr.join "/" (q :: ps)))
          = p :: q :: ps).
  rewrite (split_on_append "/" p _ Hp). f_equal. apply IH. discriminate.
Qed.

Lemma plain_component_spec (c : string) :
  plain_component c = true ->
  c <> "" /\ c <> "." /\ occurs "/" c = false /\ occurs "\" c = false.
Proof.
  unfold plain_component. rewrite !andb_true_iff, !negb_true_iff.
  intros [[[H1 H2] H3] H4].
  repeat split; try assumption; apply String.eqb_neq; assumption.
Qed.

Lemma join_plain_anchor (parts : list string) :
  parts <> [] ->
  Forall (fun p => plain_component p = true) parts ->
  Hub.posix_anchor (PyStr.join "/" parts) = "".
Proof.
  intros Hne Hparts. destruct Hparts as [| p ps Hp Hps]; [contradiction |].
  apply plain_component_spec in Hp as (Hp & _ & Hslash & _).
  destruct p as [| a p]; [contradiction |].
  cbn [occurs] in Hslash. apply orb_false_iff in Hslash as [Ha _].
  assert (Hhead : exists t, PyStr.join "/" (String a p :: ps) = String a t).
  { destruct ps; [exists p; reflexivity | eexists; reflexivity]. }
  destruct Hhead as [t ->]. unfold Hub.posix_anchor. cbn [Hub.count_leading].
  rewrite Ha. reflexivity.
Qed.

(** What the manifest writes for a listing entry whose components are
    plain, on a platform with the slash as separator, and what a POSIX
    path reads back from it. *)
Lemma plain_rel_path (env : audio_env) (rel : PyPath.path) :
  os_sep env = "/" ->
  rel <> [] ->
  Forall (fun c => plain_component c = true) rel ->
  rel_path_of env rel = PyStr.join "/" rel
  /\ Hub.posix_parts (rel_path_of env rel) = rel
  /\ Hub.posix_anchor (rel_path_of env rel) = "".
Proof.
  intros Hsep Hne Hplain.
  assert (Hslash : Forall (fun p => occurs "/" p = false) rel).
  { eapply Forall_impl; [exact Hplain |]. intros c Hc.
    apply plain_component_spec in Hc. tauto. }
  assert (Hback : Forall (fun p => occurs "\" p = false) rel).
  { eapply Forall_impl; [exact Hplain |]. intros c Hc.
    apply plain_component_spec in Hc. tauto. }
  assert (Hpath : rel_path_of env rel = PyStr.join "/" rel).
  { unfold rel_path_of, PyPath.str. rewrite Hsep.
    destruct rel as [| c rel]; [contradiction |].
    apply replace_absent. apply occurs_join; [reflexivity | exact Hback]. }
  rewrite Hpath. split; [reflexivity |].
  split; [| apply join_plain_anchor; assumption].
  unfold Hub.posix_parts. rewrite (split_on_join rel Hne Hslash).
  clear Hne Hslash Hback Hpath.
  induction Hplain as [| c cs Hc Hcs IH]; [reflexivity |].
  cbn [List.filter]. rewrite IH.
  unfold plain_component in Hc. rewrite !andb_true_iff in Hc.
  destruct Hc as [[[H1 H2] _] _]. rewrite H1, H2. reflexivity.
Qed.

(** X16. Round trip of a path: on a platform with the slash as
    separator, for a listing entry whose components are plain (not
    empty, not a single dot, without slash or backslash), joining the
    [file_path] of the manifest to the data root as line 9 does gives
    the path of the file itself. *)
Theorem file_path_leads_back_to_the_file (env : audio_env)
    (root rel : PyPath.path) :
  os_sep env = "/" ->
  rel <> [] ->
  Forall (fun c => plain_component c = true) rel ->
  Hub.str_truediv root (rel_path_of env rel) = "/" +:+ PyStr.join "/" (root ++ rel).
Proof.
  intros Hsep Hne Hplain.
  destruct (plain_rel_path env rel Hsep Hne Hplain) as (_ & Hparts & Hanchor).
  unfold Hub.str_truediv. rewrite Hanchor, Hparts. reflexivity.
Qed.

Lemma file_path_leads_back_to_the_file_witness :
  Hub.str_truediv Sample.root (rel_path_of Sample.tree ["spk1"; "a.WAV"])
  = "/" +:+ PyStr.join "/" (Sample.root ++ ["spk1"; "a.WAV"]).
Proof.
  apply (file_path_leads_back_to_the_file Sample.tree Sample.root ["spk1"; "a.WAV"]).
  - reflexivity.
  - discriminate.
  - repeat constructor.
Defined.

(** X17. On such a platform two listing entries with plain components
    never share a [file_path]. *)
Theorem plain_entries_have_distinct_file_paths (env : audio_env)
    (rel1 rel2 : PyPath.path) :
  os_sep env = "/" ->
  rel1 <> [] ->
  rel2 <> [] ->
  Forall (fun c => plain_component c = true) rel1 ->
  Forall (fun c => plain_component c = true) rel2 ->
  rel_path_of env rel1 = rel_path_of env rel2 ->
  rel1 = rel2.
Proof.
  intros Hsep Hne1 Hne2 Hplain1 Hplain2 Heq.
  destruct (plain_rel_path env rel1 Hsep Hne1 Hplain1) as (_ & Hparts1 & _).
  destruct (plain_rel_path env rel2 Hsep Hne2 Hplain2) as (_ & Hparts2 & _).
  rewrite <- Hparts1, <- Hparts2, Heq. reflexivity.
Qed.

Lemma plain_entries_have_distinct_file_paths_witness :
  ["spk1"; "a.WAV"] = ["spk1"; "a.WAV"].
Proof.
  apply (plain_entries_have_distinct_file_paths Sample.tree
           ["spk1"; "a.WAV"] ["spk1"; "a.WAV"]).
  - reflexivity.
  - discriminate.
  - discriminate.
  - repeat constructor.
  - repeat constructor.
  - reflexivity.
Defined.
